(** * The PatchTST getting-started notebook

    A model of [notebooks/hfdemo/patch_tst_getting_started.ipynb].

    The notebook is a straight-line program: it fixes a few parameters,
    computes the row indices of the train / validation / test splits and
    then calls into pandas, tsfm_public and transformers.  The parameters
    and the index arithmetic are transcribed as constants; the library
    calls are actions of a small state-and-error monad whose state is the
    part of the Python kernel the notebook touches: the three
    pseudo-random generators and a log of the calls made.  The code cells
    are also kept as syntax, for the statements about what the text
    imports and defines.

    The first half of the file holds the definitions, the second half
    the facts about them. *)

From Stdlib Require Import ZArith String List Bool Lia.
Import ListNotations.

Local Open Scope string_scope.
Local Open Scope list_scope.
Local Open Scope Z_scope.

(* ===================================================================== *)
(** * Lists of rows and Python slicing *)
(* ===================================================================== *)

Module Py.

(** [range lo n] is [lo; lo+1; ...; lo+n-1], the labels of a
    [RangeIndex] and of its contiguous slices. *)
Fixpoint range (lo : Z) (n : nat) : list Z :=
  match n with
  | O => []
  | S m => lo :: range (lo + 1) m
  end.

(** Bound normalisation of a Python slice over a sequence of length [n]:
    a negative bound counts from the end, and both ends are clamped. *)
Definition clamp (n i : Z) : Z :=
  if i <? 0 then Z.max (i + n) 0 else Z.min i n.

(** [l[start:stop]]; [None] leaves that side open. *)
Definition slice {A : Type} (start stop : option Z) (l : list A) : list A :=
  let n := Z.of_nat (length l) in
  let lo := match start with Some i => clamp n i | None => 0 end in
  let hi := match stop with Some i => clamp n i | None => n end in
  firstn (Z.to_nat (hi - lo)) (skipn (Z.to_nat lo) l).

(** [len(l)] as a Python integer. *)
Definition len {A : Type} (l : list A) : Z := Z.of_nat (length l).

End Py.

(* ===================================================================== *)
(** * Parameters and split indices (code cells 2, 4 and 5) *)
(* ===================================================================== *)

(** Cell 2. *)
Definition SEED : Z := 42.

(** Cell 4. *)
Definition dataset : string := "ETTh1".
Definition num_workers : Z := 8.
Definition batch_size : Z := 32.
Definition context_length : Z := 512.
Definition forecast_horizon : Z := 96.
Definition patch_length : Z := 12.

(** Cell 5. *)
Definition dataset_path : string :=
  ("https://raw.githubusercontent.com/zhouhaoyi/ETDataset/main/ETT-small/"
   ++ dataset ++ ".csv")%string.
Definition timestamp_column : string := "date".
Definition id_columns : list string := [].
Definition forecast_columns : list string :=
  ["HUFL"; "HULL"; "MUFL"; "MULL"; "LUFL"; "LULL"; "OT"].
Definition train_start_index : option Z := None.
Definition train_end_index : Z := 12 * 30 * 24.

Definition valid_start_index : Z := 12 * 30 * 24 - context_length.
Definition valid_end_index : Z := 12 * 30 * 24 + 4 * 30 * 24.

Definition test_start_index : Z := 12 * 30 * 24 + 4 * 30 * 24 - context_length.
Definition test_end_index : Z := 12 * 30 * 24 + 8 * 30 * 24.

(* ===================================================================== *)
(** * The libraries the notebook calls, as far as it uses them *)
(* ===================================================================== *)

(** Errors a call can raise. *)
Inductive exn :=
| FileNotFoundError (path : string)
| OSError (name : string)
| RuntimeError (msg : string)
| ValueError (msg : string).

Inductive outcome (A : Type) :=
| Ok (a : A)
| Raised (e : exn).
Arguments Ok {A} a.
Arguments Raised {A} e.

(** ** pandas: the row index of a frame

    [pd.read_csv] labels the rows with a [RangeIndex] and positional
    slicing keeps the labels, so every frame of the notebook is a block
    of consecutive rows of the CSV. *)
Module RangeIndex.

Record t := { start : Z; stop : Z }.

Definition len (r : t) : Z := Z.max 0 (stop r - start r).

Definition labels (r : t) : list Z :=
  Py.range (start r) (Z.to_nat (stop r - start r)).

(** [r[a:b]], with Python's treatment of the bounds. *)
Definition slice (a b : option Z) (r : t) : t :=
  let n := len r in
  let lo := match a with Some i => Py.clamp n i | None => 0 end in
  let hi := match b with Some i => Py.clamp n i | None => n end in
  {| start := start r + lo; stop := start r + Z.max lo hi |}.

Definition mem (x : Z) (r : t) : bool := (start r <=? x) && (x <? stop r).

End RangeIndex.

(** ** sklearn's StandardScaler after [fit]

    [mean_], [var_] and [scale_] are floating-point statistics of the
    fitted rows; the model keeps the rows they were computed from. *)
Module StandardScaler.

Record t := {
  feature_names_in_ : list string;
  n_features_in_ : Z;
  n_samples_seen_ : Z;
  fitted_rows : RangeIndex.t
}.

End StandardScaler.

Module DataFrame.

Record t := {
  index : RangeIndex.t;
  (** [None]: the values as read; [Some s]: standardised with [s]. *)
  scaled_by : option StandardScaler.t
}.

Definition len (df : t) : Z := RangeIndex.len (index df).

(** [df.iloc[a:b]] *)
Definition iloc (a b : option Z) (df : t) : t :=
  {| index := RangeIndex.slice a b (index df); scaled_by := scaled_by df |}.

End DataFrame.

(** ** tsfm_public.toolkit.util *)
Module Util.

(** Modelled from the spec: [select_by_index] of
    tsfm_public/toolkit/util.py is not among the sources.  The spec calls
    the step index slicing, and the notebook describes its arguments as
    the start and end indices in the loaded data which delineate a split,
    with [None] for the beginning of the dataset; for a frame without id
    columns that is the positional slice [df.iloc[start_index:end_index]]. *)
Definition select_by_index (df : DataFrame.t) (id_columns : list string)
    (start_index end_index : option Z) : DataFrame.t :=
  DataFrame.iloc start_index end_index df.

End Util.

(** ** tsfm_public.toolkit.time_series_preprocessor *)
Module TimeSeriesPreprocessor.

(** Modelled from the spec: the class is not among the sources.  The
    fields are the arguments the notebook constructs it with and the
    scaler that [train] fits. *)
Record t := {
  timestamp_column : string;
  id_columns : list string;
  target_columns : list string;
  scaling : bool;
  (** the entry under key ["0"] of [scaler_dict]; [None] before [train] *)
  scaler_dict : option StandardScaler.t
}.

(** Modelled from the spec: the constructor is not among the sources.  A
    preprocessor that has just been constructed is not fitted. *)
Definition init (timestamp_column : string) (id_columns target_columns : list string)
    (scaling : bool) : t :=
  {| timestamp_column := timestamp_column; id_columns := id_columns;
     target_columns := target_columns; scaling := scaling;
     scaler_dict := None |}.

(** Modelled from the spec: [TimeSeriesPreprocessor.train] is not among
    the sources.  The spec's preprocessor is a fitted transform, for
    instance a per-channel standardization: [train] fits one scaler on
    the target columns of the frame it is given, over all of its rows,
    and returns the preprocessor. *)
Definition train (self : t) (df : DataFrame.t) : t :=
  if scaling self then
    {| timestamp_column := timestamp_column self;
       id_columns := id_columns self;
       target_columns := target_columns self;
       scaling := true;
       scaler_dict := Some
         {| StandardScaler.feature_names_in_ := target_columns self;
            StandardScaler.n_features_in_ := Py.len (target_columns self);
            StandardScaler.n_samples_seen_ := DataFrame.len df;
            StandardScaler.fitted_rows := DataFrame.index df |} |}
  else self.

(** Modelled from the spec: [TimeSeriesPreprocessor.preprocess] is not
    among the sources.  The fitted transform is applied to the raw values
    of a frame; a preprocessor that scales and has not been fitted has no
    transform to apply and raises. *)
Definition preprocess (self : t) (df : DataFrame.t) : outcome DataFrame.t :=
  if scaling self then
    match scaler_dict self with
    | Some s =>
        Ok {| DataFrame.index := DataFrame.index df;
              DataFrame.scaled_by := Some s |}
    | None => Raised (RuntimeError "scaler has not been trained")
    end
  else Ok df.

End TimeSeriesPreprocessor.

(** ** tsfm_public.toolkit.dataset *)
Module ForecastDFDataset.

(** Modelled from the spec: the class is not among the sources.  The
    fields are the arguments the notebook constructs it with. *)
Record t := {
  data : DataFrame.t;
  id_columns : list string;
  target_columns : list string;
  context_length : Z;
  prediction_length : Z
}.

(** Modelled from the spec: the constructor is not among the sources; it
    keeps its arguments. *)
Definition init (data : DataFrame.t) (id_columns target_columns : list string)
    (context_length prediction_length : Z) : t :=
  {| data := data; id_columns := id_columns; target_columns := target_columns;
     context_length := context_length; prediction_length := prediction_length |}.

(** Modelled from the spec: the windowing of [ForecastDFDataset] is not
    among the sources.  A sample is a window of the frame: the context,
    [context_length] historical time steps given to the model, followed
    by the [prediction_length] future time steps it is asked to predict.
    There is one sample for each position at which such a window fits. *)
Definition len (self : t) : Z :=
  Z.max 0 (DataFrame.len (data self)
           - (context_length self + prediction_length self) + 1).

(** Modelled from the spec: indexing a [ForecastDFDataset] is not among
    the sources.  Sample [i] is the window that starts at row [i] of the
    frame: (rows of the context, rows to forecast). *)
Definition getitem (self : t) (i : Z) : option (list Z * list Z) :=
  if (0 <=? i) && (i <? len self) then
    let rows := RangeIndex.labels (DataFrame.index (data self)) in
    let c := context_length self in
    let h := prediction_length self in
    Some (Py.slice (Some i) (Some (i + c)) rows,
          Py.slice (Some (i + c)) (Some (i + c + h)) rows)
  else None.

(** Modelled from the spec: the tensors of a sample are not among the
    sources.  Their shapes are (time steps, channels), the channels being
    the target columns. *)
Definition past_shape (self : t) : Z * Z :=
  (context_length self, Py.len (target_columns self)).

(** Modelled from the spec: as [past_shape], for the steps to forecast. *)
Definition future_shape (self : t) : Z * Z :=
  (prediction_length self, Py.len (target_columns self)).

End ForecastDFDataset.

(** ** Pseudo-random generators

    A generator is known by where its stream comes from and by how much
    of the stream has been consumed.  An unseeded generator starts from
    operating-system entropy, which differs from run to run. *)
Module Rng.

Inductive origin :=
| Entropy (e : Z)
| Seed (s : Z).

Record t := { source : origin; draws : nat }.

Definition seed (s : Z) : t := {| source := Seed s; draws := 0 |}.

(** Drawing yields the generator as it stood and advances it. *)
Definition draw (g : t) : t * t :=
  (g, {| source := source g; draws := S (draws g) |}).

End Rng.

(** ** transformers: PatchTST and the Trainer

    The transformers package is not part of the repository.  The model
    keeps what the notebook passes to it and the shapes it works with:
    a model takes windows of [context_length] steps over
    [num_input_channels] channels and returns [prediction_length] steps
    over the same channels. *)

(** A floating-point literal, kept as written in the notebook. *)
Definition pyfloat := string.

(** Keyword-argument values for the calls whose arguments the notebook
    only passes along. *)
Inductive pyval :=
| PInt (n : Z)
| PFloat (x : pyfloat)
| PStr (s : string)
| PBool (b : bool)
| PStrs (l : list string).

Definition kwargs := list (string * pyval).

Module PatchTSTConfig.

Record t := {
  do_mask_input : bool;
  context_length : Z;
  patch_length : Z;
  num_input_channels : Z;
  patch_stride : Z;
  prediction_length : Z;
  d_model : Z;
  num_attention_heads : Z;
  num_hidden_layers : Z;
  ffn_dim : Z;
  dropout : pyfloat;
  head_dropout : pyfloat;
  pooling_type : option string;
  channel_attention : bool;
  scaling : string;
  loss : string;
  pre_norm : bool;
  norm_type : string
}.

(** Shapes of the model's input and output for one sample. *)
Definition input_shape (c : t) : Z * Z := (context_length c, num_input_channels c).
Definition output_shape (c : t) : Z * Z := (prediction_length c, num_input_channels c).

End PatchTSTConfig.

Module PatchTSTForPrediction.

Inductive weights :=
| Checkpoint (name : string)
| Initialised (g : Rng.t)
| Trained (from : weights) (shuffle : Rng.t)
    (train_dataset eval_dataset : ForecastDFDataset.t).

Record t := { config : PatchTSTConfig.t; params : weights }.

(** [PatchTSTForPrediction(config=config)]: fresh weights drawn from
    torch's generator. *)
Definition init (config : PatchTSTConfig.t) (torch : Rng.t) : t * Rng.t :=
  let (g, torch') := Rng.draw torch in
  ({| config := config; params := Initialised g |}, torch').

(** The model accepts the samples of a dataset when their shapes are the
    ones its configuration was built for. *)
Definition accepts (m : t) (ds : ForecastDFDataset.t) : bool :=
  let c := config m in
  (PatchTSTConfig.context_length c =? ForecastDFDataset.context_length ds)
  && (PatchTSTConfig.prediction_length c =? ForecastDFDataset.prediction_length ds)
  && (PatchTSTConfig.num_input_channels c
      =? Py.len (ForecastDFDataset.target_columns ds)).

End PatchTSTForPrediction.

Module Trainer.

Record t := {
  model : PatchTSTForPrediction.t;
  args : kwargs;
  train_dataset : option ForecastDFDataset.t;
  eval_dataset : option ForecastDFDataset.t;
  callbacks : list kwargs
}.

(** What [evaluate] reports, without the floating-point metrics. *)
Record EvalOutput := { eval_samples : Z }.

(** What [predict] returns, as far as the notebook looks at it. *)
Record PredictionOutput := { predictions_0_shape : Z * Z * Z }.

Definition mismatch : exn :=
  ValueError "input does not match the model configuration".

Definition evaluate (self : t) (ds : ForecastDFDataset.t) : outcome EvalOutput :=
  if PatchTSTForPrediction.accepts (model self) ds
  then Ok {| eval_samples := ForecastDFDataset.len ds |}
  else Raised mismatch.

(** One forecast of [prediction_length] steps over every channel for each
    sample of the dataset. *)
Definition predict (self : t) (ds : ForecastDFDataset.t) : outcome PredictionOutput :=
  if PatchTSTForPrediction.accepts (model self) ds
  then
    let c := PatchTSTForPrediction.config (model self) in
    Ok {| predictions_0_shape :=
            (ForecastDFDataset.len ds,
             PatchTSTConfig.prediction_length c,
             PatchTSTConfig.num_input_channels c) |}
  else Raised mismatch.

(** [trainer.train()] updates the model the trainer holds; the batches
    are shuffled with torch's generator. *)
Definition train (self : t) (torch : Rng.t) : outcome (t * Rng.t) :=
  match train_dataset self, eval_dataset self with
  | Some tr, Some ev =>
      if PatchTSTForPrediction.accepts (model self) tr
         && PatchTSTForPrediction.accepts (model self) ev
      then
        let (g, torch') := Rng.draw torch in
        let m := model self in
        Ok ({| model :=
                 {| PatchTSTForPrediction.config := PatchTSTForPrediction.config m;
                    PatchTSTForPrediction.params :=
                      PatchTSTForPrediction.Trained
                        (PatchTSTForPrediction.params m) g tr ev |};
               args := args self;
               train_dataset := train_dataset self;
               eval_dataset := eval_dataset self;
               callbacks := callbacks self |}, torch')
      else Raised mismatch
  | _, _ => Raised (ValueError "training requires a train and an eval dataset")
  end.

End Trainer.

(* ===================================================================== *)
(** * The kernel: world, state, log and the notebook monad *)
(* ===================================================================== *)

(** What lies outside the notebook: the CSV files reachable by path or
    URL (their number of data rows) and the checkpoints of the model hub
    (their configuration). *)
Record world := {
  csv : string -> option Z;
  hub : string -> option PatchTSTConfig.t
}.

(** The library calls of the notebook, with their evaluated arguments. *)
Module Call.

Inductive t :=
| torch_manual_seed (seed : Z)
| random_seed (seed : Z)
| np_random_seed (seed : Z)
| print (text : string)
| print_result (r : Trainer.EvalOutput)
| read_csv (path : string) (parse_dates : list string)
| select_by_index (df : DataFrame.t) (id_columns : list string)
    (start_index end_index : option Z)
| TimeSeriesPreprocessor (timestamp_column : string)
    (id_columns target_columns : list string) (scaling : bool)
| tsp_train (self : TimeSeriesPreprocessor.t) (df : DataFrame.t)
| tsp_preprocess (self : TimeSeriesPreprocessor.t) (df : DataFrame.t)
| ForecastDFDataset (data : DataFrame.t) (id_columns target_columns : list string)
    (context_length prediction_length : Z)
| from_pretrained (name : string)
| TrainingArguments (kw : kwargs)
| Trainer (model : PatchTSTForPrediction.t) (args : kwargs)
    (train_dataset eval_dataset : option ForecastDFDataset.t)
    (callbacks : list kwargs)
| evaluate (self : Trainer.t) (ds : ForecastDFDataset.t)
| PatchTSTConfig (config : PatchTSTConfig.t)
| PatchTSTForPrediction (config : PatchTSTConfig.t)
| EarlyStoppingCallback (kw : kwargs)
| train (self : Trainer.t)
| predict (self : Trainer.t) (ds : ForecastDFDataset.t)
| shape (s : Z * Z * Z).

End Call.

Record kernel := {
  torch_rng : Rng.t;
  random_rng : Rng.t;
  np_rng : Rng.t;
  log : list Call.t
}.

(** A kernel that has just started: nothing seeded, nothing called. *)
Definition fresh_kernel (e_torch e_random e_np : Z) : kernel :=
  {| torch_rng := {| Rng.source := Rng.Entropy e_torch; Rng.draws := 0 |};
     random_rng := {| Rng.source := Rng.Entropy e_random; Rng.draws := 0 |};
     np_rng := {| Rng.source := Rng.Entropy e_np; Rng.draws := 0 |};
     log := [] |}.

(** A cell computes a value or raises; either way the kernel keeps the
    state it had reached. *)
Definition nb (A : Type) : Type := world -> kernel -> outcome A * kernel.

Definition ret {A : Type} (a : A) : nb A := fun _ k => (Ok a, k).

Definition bind {A B : Type} (c : nb A) (f : A -> nb B) : nb B :=
  fun w k =>
    match c w k with
    | (Ok a, k') => f a w k'
    | (Raised e, k') => (Raised e, k')
    end.

Declare Scope nb_scope.
Delimit Scope nb_scope with nb.
Notation "x <- c ;; f" := (bind c (fun x => f))
  (at level 100, c at next level, right associativity) : nb_scope.
Notation "' pat <- c ;; f" := (bind c (fun x => match x with pat => f end))
  (at level 100, pat pattern, c at next level, right associativity) : nb_scope.
Notation "c ;; f" := (bind c (fun _ => f))
  (at level 100, right associativity) : nb_scope.
Local Open Scope nb_scope.

(** Record a call. *)
Definition called (c : Call.t) : nb unit :=
  fun _ k =>
    (Ok tt, {| torch_rng := torch_rng k; random_rng := random_rng k;
               np_rng := np_rng k; log := log k ++ [c] |}).

Definition lift {A : Type} (r : outcome A) : nb A := fun _ k => (r, k).

Definition ask : nb world := fun w k => (Ok w, k).

(** Run an action that uses torch's generator. *)
Definition with_torch {A : Type} (f : Rng.t -> outcome (A * Rng.t)) : nb A :=
  fun _ k =>
    match f (torch_rng k) with
    | Ok (a, g) =>
        (Ok a, {| torch_rng := g; random_rng := random_rng k;
                  np_rng := np_rng k; log := log k |})
    | Raised e => (Raised e, k)
    end.

Definition set_rngs (f : kernel -> Rng.t * Rng.t * Rng.t) : nb unit :=
  fun _ k =>
    let '(t, r, n) := f k in
    (Ok tt, {| torch_rng := t; random_rng := r; np_rng := n; log := log k |}).

(** ** The calls as kernel actions *)
Module Act.

Definition torch_manual_seed (seed : Z) : nb unit :=
  called (Call.torch_manual_seed seed) ;;
  set_rngs (fun k => (Rng.seed seed, random_rng k, np_rng k)).

Definition random_seed (seed : Z) : nb unit :=
  called (Call.random_seed seed) ;;
  set_rngs (fun k => (torch_rng k, Rng.seed seed, np_rng k)).

Definition np_random_seed (seed : Z) : nb unit :=
  called (Call.np_random_seed seed) ;;
  set_rngs (fun k => (torch_rng k, random_rng k, Rng.seed seed)).

Definition print (text : string) : nb unit := called (Call.print text).

Definition print_result (r : Trainer.EvalOutput) : nb unit :=
  called (Call.print_result r).

(** [pd.read_csv(path, parse_dates=...)] *)
Definition read_csv (path : string) (parse_dates : list string) : nb DataFrame.t :=
  called (Call.read_csv path parse_dates) ;;
  w <- ask ;;
  match csv w path with
  | Some n =>
      ret {| DataFrame.index := {| RangeIndex.start := 0;
                                   RangeIndex.stop := Z.max 0 n |};
             DataFrame.scaled_by := None |}
  | None => lift (Raised (FileNotFoundError path))
  end.

Definition select_by_index (df : DataFrame.t) (id_columns : list string)
    (start_index end_index : option Z) : nb DataFrame.t :=
  called (Call.select_by_index df id_columns start_index end_index) ;;
  ret (Util.select_by_index df id_columns start_index end_index).

Definition TimeSeriesPreprocessor (timestamp_column : string)
    (id_columns target_columns : list string) (scaling : bool)
    : nb TimeSeriesPreprocessor.t :=
  called (Call.TimeSeriesPreprocessor timestamp_column id_columns
            target_columns scaling) ;;
  ret (TimeSeriesPreprocessor.init timestamp_column id_columns
         target_columns scaling).

(** [tsp.train(df)] changes [tsp] in place and returns it: the caller
    goes on with the returned preprocessor. *)
Definition tsp_train (self : TimeSeriesPreprocessor.t) (df : DataFrame.t)
    : nb TimeSeriesPreprocessor.t :=
  called (Call.tsp_train self df) ;;
  ret (TimeSeriesPreprocessor.train self df).

Definition tsp_preprocess (self : TimeSeriesPreprocessor.t) (df : DataFrame.t)
    : nb DataFrame.t :=
  called (Call.tsp_preprocess self df) ;;
  lift (TimeSeriesPreprocessor.preprocess self df).

Definition ForecastDFDataset (data : DataFrame.t)
    (id_columns target_columns : list string)
    (context_length prediction_length : Z) : nb ForecastDFDataset.t :=
  called (Call.ForecastDFDataset data id_columns target_columns
            context_length prediction_length) ;;
  ret (ForecastDFDataset.init data id_columns target_columns
         context_length prediction_length).

(** [PatchTSTForPrediction.from_pretrained(name)] *)
Definition from_pretrained (name : string) : nb PatchTSTForPrediction.t :=
  called (Call.from_pretrained name) ;;
  w <- ask ;;
  match hub w name with
  | Some c =>
      ret {| PatchTSTForPrediction.config := c;
             PatchTSTForPrediction.params := PatchTSTForPrediction.Checkpoint name |}
  | None => lift (Raised (OSError name))
  end.

Definition TrainingArguments (kw : kwargs) : nb kwargs :=
  called (Call.TrainingArguments kw) ;; ret kw.

Definition EarlyStoppingCallback (kw : kwargs) : nb kwargs :=
  called (Call.EarlyStoppingCallback kw) ;; ret kw.

Definition Trainer (model : PatchTSTForPrediction.t) (args : kwargs)
    (train_dataset eval_dataset : option ForecastDFDataset.t)
    (callbacks : list kwargs) : nb Trainer.t :=
  called (Call.Trainer model args train_dataset eval_dataset callbacks) ;;
  ret {| Trainer.model := model; Trainer.args := args;
         Trainer.train_dataset := train_dataset;
         Trainer.eval_dataset := eval_dataset;
         Trainer.callbacks := callbacks |}.

Definition evaluate (self : Trainer.t) (ds : ForecastDFDataset.t)
    : nb Trainer.EvalOutput :=
  called (Call.evaluate self ds) ;;
  lift (Trainer.evaluate self ds).

Definition PatchTSTConfig (config : PatchTSTConfig.t) : nb PatchTSTConfig.t :=
  called (Call.PatchTSTConfig config) ;; ret config.

Definition PatchTSTForPrediction (config : PatchTSTConfig.t)
    : nb PatchTSTForPrediction.t :=
  called (Call.PatchTSTForPrediction config) ;;
  with_torch (fun g => Ok (PatchTSTForPrediction.init config g)).

(** [trainer.train()] changes the trainer and its model in place. *)
Definition train (self : Trainer.t) : nb Trainer.t :=
  called (Call.train self)  ;;
  with_torch (Trainer.train self).

Definition predict (self : Trainer.t) (ds : ForecastDFDataset.t)
    : nb Trainer.PredictionOutput :=
  called (Call.predict self ds) ;;
  lift (Trainer.predict self ds).

(** [output.predictions[0].shape], the value the cell displays. *)
Definition shape (output : Trainer.PredictionOutput) : nb (Z * Z * Z) :=
  called (Call.shape (Trainer.predictions_0_shape output)) ;;
  ret (Trainer.predictions_0_shape output).

End Act.

(* ===================================================================== *)
(** * The notebook, cell by cell *)
(* ===================================================================== *)

(** Cell 2: "Set seed for reproducibility". *)
Definition cell_2 : nb unit :=
  Act.torch_manual_seed SEED ;;
  Act.random_seed SEED ;;
  Act.np_random_seed SEED.

(** Cell 5, the one statement that is not an assignment of a constant. *)
Definition cell_5 : nb unit :=
  Act.print ("Loading target dataset: " ++ dataset)%string.

(** The variables cell 6 binds. *)
Record frames := {
  data : DataFrame.t;
  train_data : DataFrame.t;
  valid_data : DataFrame.t;
  test_data : DataFrame.t;
  tsp : TimeSeriesPreprocessor.t
}.

(** Cell 6: load, split, fit the preprocessor. *)
Definition cell_6 : nb frames :=
  data <- Act.read_csv dataset_path [timestamp_column] ;;
  train_data <- Act.select_by_index data id_columns
                  train_start_index (Some train_end_index) ;;
  valid_data <- Act.select_by_index data id_columns
                  (Some valid_start_index) (Some valid_end_index) ;;
  test_data <- Act.select_by_index data id_columns
                 (Some test_start_index) (Some test_end_index) ;;
  tsp <- Act.TimeSeriesPreprocessor timestamp_column id_columns
           forecast_columns true ;;
  tsp <- Act.tsp_train tsp train_data ;;
  ret {| data := data; train_data := train_data; valid_data := valid_data;
         test_data := test_data; tsp := tsp |}.

(** The variables cell 7 binds. *)
Record datasets := {
  train_dataset : ForecastDFDataset.t;
  valid_dataset : ForecastDFDataset.t;
  test_dataset : ForecastDFDataset.t
}.

(** Cell 7: the three windowed datasets. *)
Definition cell_7 (f : frames) : nb datasets :=
  df <- Act.tsp_preprocess (tsp f) (train_data f) ;;
  train_dataset <- Act.ForecastDFDataset df id_columns forecast_columns
                     context_length forecast_horizon ;;
  df <- Act.tsp_preprocess (tsp f) (valid_data f) ;;
  valid_dataset <- Act.ForecastDFDataset df id_columns forecast_columns
                     context_length forecast_horizon ;;
  df <- Act.tsp_preprocess (tsp f) (test_data f) ;;
  test_dataset <- Act.ForecastDFDataset df id_columns forecast_columns
                    context_length forecast_horizon ;;
  ret {| train_dataset := train_dataset; valid_dataset := valid_dataset;
         test_dataset := test_dataset |}.

(** Cell 9: the pretrained model. *)
Definition cell_9 : nb PatchTSTForPrediction.t :=
  Act.print "Loading pretrained model" ;;
  inference_forecast_model <-
    Act.from_pretrained "ibm-granite/granite-timeseries-patchtst" ;;
  Act.print "Done" ;;
  ret inference_forecast_model.

(** Cell 10: evaluate the pretrained model on the test dataset. *)
Definition cell_10 (inference_forecast_model : PatchTSTForPrediction.t)
    (d : datasets) : nb (Trainer.t * Trainer.EvalOutput) :=
  train_args <- Act.TrainingArguments
    [("output_dir", PStr "./checkpoint/patchtst/direct/train/output/");
     ("label_names", PStrs ["future_values"])] ;;
  inference_forecast_trainer <-
    Act.Trainer inference_forecast_model train_args None None [] ;;
  Act.print "

Doing testing on Etth1/test data" ;;
  result <- Act.evaluate inference_forecast_trainer (test_dataset d) ;;
  Act.print_result result ;;
  ret (inference_forecast_trainer, result).

(** Cell 12: a model from scratch. *)
Definition cell_12 : nb (PatchTSTConfig.t * PatchTSTForPrediction.t) :=
  config <- Act.PatchTSTConfig
    {| PatchTSTConfig.do_mask_input := false;
       PatchTSTConfig.context_length := context_length;
       PatchTSTConfig.patch_length := patch_length;
       PatchTSTConfig.num_input_channels := Py.len forecast_columns;
       PatchTSTConfig.patch_stride := patch_length;
       PatchTSTConfig.prediction_length := forecast_horizon;
       PatchTSTConfig.d_model := 128;
       PatchTSTConfig.num_attention_heads := 16;
       PatchTSTConfig.num_hidden_layers := 3;
       PatchTSTConfig.ffn_dim := 512;
       PatchTSTConfig.dropout := "0.2";
       PatchTSTConfig.head_dropout := "0.2";
       PatchTSTConfig.pooling_type := None;
       PatchTSTConfig.channel_attention := false;
       PatchTSTConfig.scaling := "std";
       PatchTSTConfig.loss := "mse";
       PatchTSTConfig.pre_norm := true;
       PatchTSTConfig.norm_type := "batchnorm" |} ;;
  model <- Act.PatchTSTForPrediction config ;;
  ret (config, model).

(** Cell 13: configure the training loop and train. *)
Definition cell_13 (model : PatchTSTForPrediction.t) (d : datasets)
    : nb Trainer.t :=
  train_args <- Act.TrainingArguments
    [("output_dir", PStr "./checkpoint/patchtst/direct/train/output/");
     ("overwrite_output_dir", PBool true);
     ("learning_rate", PFloat "0.0001");
     ("num_train_epochs", PInt 100);
     ("do_eval", PBool true);
     ("evaluation_strategy", PStr "epoch");
     ("per_device_train_batch_size", PInt batch_size);
     ("per_device_eval_batch_size", PInt batch_size);
     ("dataloader_num_workers", PInt 1);
     ("save_strategy", PStr "epoch");
     ("logging_strategy", PStr "epoch");
     ("save_total_limit", PInt 3);
     ("logging_dir", PStr "./checkpoint/patchtst/direct/train/logs/");
     ("load_best_model_at_end", PBool true);
     ("metric_for_best_model", PStr "eval_loss");
     ("greater_is_better", PBool false);
     ("label_names", PStrs ["future_values"])] ;;
  early_stopping_callback <- Act.EarlyStoppingCallback
    [("early_stopping_patience", PInt 5);
     ("early_stopping_threshold", PFloat "0.001")] ;;
  trainer <- Act.Trainer model train_args
               (Some (train_dataset d)) (Some (valid_dataset d))
               [early_stopping_callback] ;;
  Act.print "

Doing forecasting training on Etth1/train" ;;
  Act.train trainer.

(** Cell 14. *)
Definition cell_14 (trainer : Trainer.t) (d : datasets) : nb Trainer.EvalOutput :=
  Act.evaluate trainer (test_dataset d).

(** Cell 16. *)
Definition cell_16 (trainer : Trainer.t) (d : datasets)
    : nb Trainer.PredictionOutput :=
  Act.predict trainer (test_dataset d).

(** Cell 17. *)
Definition cell_17 (output : Trainer.PredictionOutput) : nb (Z * Z * Z) :=
  Act.shape output.

(** ** The sections of the notebook *)

(** Seeding and "Load and prepare datasets": cells 2 to 7. *)
Definition load_and_prepare : nb (frames * datasets) :=
  cell_2 ;;
  cell_5 ;;
  f <- cell_6 ;;
  d <- cell_7 f ;;
  ret (f, d).

(** "Testing with a PatchTST model that was trained on the training part
    of the ETTh1 data": cells 9 and 10. *)
Definition testing_pretrained (d : datasets)
    : nb (Trainer.t * Trainer.EvalOutput) :=
  inference_forecast_model <- cell_9 ;;
  cell_10 inference_forecast_model d.

(** What the from-scratch section leaves behind. *)
Record scratch := {
  config : PatchTSTConfig.t;
  trainer : Trainer.t;
  Out_23 : Trainer.EvalOutput;
  output : Trainer.PredictionOutput;
  Out_25 : Z * Z * Z
}.

(** "If we want to train from scratch", with its sanity check: cells 12
    to 17. *)
Definition train_from_scratch (d : datasets) : nb scratch :=
  '(config, model) <- cell_12 ;;
  trainer <- cell_13 model d ;;
  e <- cell_14 trainer d ;;
  output <- cell_16 trainer d ;;
  s <- cell_17 output ;;
  ret {| config := config; trainer := trainer; Out_23 := e;
         output := output; Out_25 := s |}.

(** The whole notebook, cells in document order (which is also the order
    of the recorded execution counts). *)
Record namespace := {
  ns_frames : frames;
  ns_datasets : datasets;
  inference_forecast_trainer : Trainer.t;
  result : Trainer.EvalOutput;
  ns_scratch : scratch
}.

Definition notebook : nb namespace :=
  '(f, d) <- load_and_prepare ;;
  '(t, r) <- testing_pretrained d ;;
  s <- train_from_scratch d ;;
  ret {| ns_frames := f; ns_datasets := d; inference_forecast_trainer := t;
         result := r; ns_scratch := s |}.

(** The two ways through the notebook: each model section follows the
    preparation and does not use what the other one binds. *)
Definition pretrained_path : nb (frames * datasets * (Trainer.t * Trainer.EvalOutput)) :=
  '(f, d) <- load_and_prepare ;;
  r <- testing_pretrained d ;;
  ret (f, d, r).

Definition scratch_path : nb (frames * datasets * scratch) :=
  '(f, d) <- load_and_prepare ;;
  s <- train_from_scratch d ;;
  ret (f, d, s).

(** ** Outputs recorded in the notebook file *)

(** [n_samples_seen_], [n_features_in_] and [feature_names_in_] in the
    output of cell 6. *)
Definition recorded_n_samples_seen_ : Z := 8640.
Definition recorded_n_features_in_ : Z := 7.
Definition recorded_feature_names_in_ : list string :=
  ["HUFL"; "HULL"; "MUFL"; "MULL"; "LUFL"; "LULL"; "OT"].

(** The output of cell 17. *)
Definition recorded_predictions_shape : Z * Z * Z := (2785, 96, 7).

(** ** A world to run the notebook in

    A world like the one of the recorded run: a CSV of 17420 data rows
    behind [dataset_path] and, on the hub, a checkpoint for windows of
    512 steps, forecasts of 96 steps and 7 channels. *)
Definition etth1_world : world :=
  {| csv := fun path =>
       if String.eqb path dataset_path then Some 17420 else None;
     hub := fun name =>
       if String.eqb name "ibm-granite/granite-timeseries-patchtst" then
         Some {| PatchTSTConfig.do_mask_input := false;
                 PatchTSTConfig.context_length := 512;
                 PatchTSTConfig.patch_length := 12;
                 PatchTSTConfig.num_input_channels := 7;
                 PatchTSTConfig.patch_stride := 12;
                 PatchTSTConfig.prediction_length := 96;
                 PatchTSTConfig.d_model := 128;
                 PatchTSTConfig.num_attention_heads := 16;
                 PatchTSTConfig.num_hidden_layers := 3;
                 PatchTSTConfig.ffn_dim := 512;
                 PatchTSTConfig.dropout := "0.2";
                 PatchTSTConfig.head_dropout := "0.2";
                 PatchTSTConfig.pooling_type := None;
                 PatchTSTConfig.channel_attention := false;
                 PatchTSTConfig.scaling := "std";
                 PatchTSTConfig.loss := "mse";
                 PatchTSTConfig.pre_norm := true;
                 PatchTSTConfig.norm_type := "batchnorm" |}
       else None |}.

Definition run {A : Type} (c : nb A) (w : world) (k : kernel) : outcome A * kernel :=
  c w k.

(* ===================================================================== *)
(** * Worlds, logs and steps: what the statements are about *)
(* ===================================================================== *)

(** The CSV behind [dataset_path] can be read and reaches at least to the
    end of the test split. *)
Definition enough_rows (w : world) : Prop :=
  exists n, csv w dataset_path = Some n /\ test_end_index <= n.

(** The hub has the checkpoint cell 9 asks for, and it was built for the
    windows, horizon and channels of the notebook's datasets. *)
Definition checkpoint_fits (w : world) : Prop :=
  exists c,
    hub w "ibm-granite/granite-timeseries-patchtst" = Some c
    /\ PatchTSTConfig.context_length c = context_length
    /\ PatchTSTConfig.prediction_length c = forecast_horizon
    /\ PatchTSTConfig.num_input_channels c = Py.len forecast_columns.

(** The rows two indexes share. *)
Definition overlap (r1 r2 : RangeIndex.t) : RangeIndex.t :=
  {| RangeIndex.start := Z.max (RangeIndex.start r1) (RangeIndex.start r2);
     RangeIndex.stop := Z.min (RangeIndex.stop r1) (RangeIndex.stop r2) |}.

(** ** Reading the log *)

(** Bounds given to the [select_by_index] calls, in order. *)
Definition select_by_index_bounds (l : list Call.t) : list (option Z * option Z) :=
  flat_map (fun c =>
    match c with
    | Call.select_by_index _ _ a b => [(a, b)]
    | _ => []
    end) l.

(** Frames given to [tsp.train]. *)
Definition train_frames (l : list Call.t) : list DataFrame.t :=
  flat_map (fun c =>
    match c with Call.tsp_train _ df => [df] | _ => [] end) l.

(** Frames given to [ForecastDFDataset]. *)
Definition dataset_frames (l : list Call.t) : list DataFrame.t :=
  flat_map (fun c =>
    match c with Call.ForecastDFDataset df _ _ _ _ => [df] | _ => [] end) l.

(** Windowing arguments of the [ForecastDFDataset] calls: id columns,
    target columns, context length, prediction length. *)
Definition dataset_windowing (l : list Call.t)
    : list (list string * list string * Z * Z) :=
  flat_map (fun c =>
    match c with
    | Call.ForecastDFDataset _ ids cols cl pl => [(ids, cols, cl, pl)]
    | _ => []
    end) l.

(** Configurations given to [PatchTSTConfig]. *)
Definition configs (l : list Call.t) : list PatchTSTConfig.t :=
  flat_map (fun c =>
    match c with Call.PatchTSTConfig c => [c] | _ => [] end) l.

(** Every [tsp.preprocess] in the log comes after a [tsp.train] and is
    made on a preprocessor that holds a fitted scaler. *)
Fixpoint preprocess_after_train (fitted : bool) (l : list Call.t) : bool :=
  match l with
  | [] => true
  | Call.tsp_train _ _ :: l' => preprocess_after_train true l'
  | Call.tsp_preprocess self _ :: l' =>
      fitted
      && match TimeSeriesPreprocessor.scaler_dict self with
         | Some _ => true
         | None => false
         end
      && preprocess_after_train fitted l'
  | _ :: l' => preprocess_after_train fitted l'
  end.

(** The calls that make, fit or apply the preprocessor and those that
    window a frame. *)
Definition pipeline_calls (l : list Call.t) : list Call.t :=
  filter (fun c =>
    match c with
    | Call.TimeSeriesPreprocessor _ _ _ _
    | Call.tsp_train _ _
    | Call.tsp_preprocess _ _
    | Call.ForecastDFDataset _ _ _ _ _ => true
    | _ => false
    end) l.

(** ** The order of the steps *)

(** The steps the description of the notebook lists, in its order. *)
Inductive step :=
| ReadCSV
| SplitIndices
| InstantiatePreprocessor
| BuildDataset
| InstantiateModel
| ConfigureTraining
| Train
| Evaluate
| InspectShapes.

Definition rank (s : step) : nat :=
  match s with
  | ReadCSV => 0
  | SplitIndices => 1
  | InstantiatePreprocessor => 2
  | BuildDataset => 3
  | InstantiateModel => 4
  | ConfigureTraining => 5
  | Train => 6
  | Evaluate => 7
  | InspectShapes => 8
  end.

(** The step a call belongs to, for the calls the description names. *)
Definition step_of (c : Call.t) : option step :=
  match c with
  | Call.read_csv _ _ => Some ReadCSV
  | Call.select_by_index _ _ _ _ => Some SplitIndices
  | Call.TimeSeriesPreprocessor _ _ _ _ => Some InstantiatePreprocessor
  | Call.ForecastDFDataset _ _ _ _ _ => Some BuildDataset
  | Call.from_pretrained _ => Some InstantiateModel
  | Call.PatchTSTForPrediction _ => Some InstantiateModel
  | Call.TrainingArguments _ => Some ConfigureTraining
  | Call.Trainer _ _ _ _ _ => Some ConfigureTraining
  | Call.train _ => Some Train
  | Call.evaluate _ _ => Some Evaluate
  | Call.shape _ => Some InspectShapes
  | _ => None
  end.

Definition steps (l : list Call.t) : list step :=
  flat_map (fun c => match step_of c with Some s => [s] | None => [] end) l.

(** No step comes before one that is listed before it. *)
Definition in_order (l : list step) : Prop :=
  forall i j a b,
    (i < j)%nat -> nth_error l i = Some a -> nth_error l j = Some b ->
    (rank a <= rank b)%nat.

Fixpoint nondecreasing (l : list step) : bool :=
  match l with
  | [] => true
  | a :: l' =>
      match l' with
      | [] => true
      | b :: _ => (rank a <=? rank b)%nat && nondecreasing l'
      end
  end.

(** ** Seeding *)

(** The kernel after cell 2, whatever it was seeded with before. *)
Definition seeded_kernel : kernel :=
  {| torch_rng := Rng.seed SEED;
     random_rng := Rng.seed SEED;
     np_rng := Rng.seed SEED;
     log := [Call.torch_manual_seed SEED; Call.random_seed SEED;
             Call.np_random_seed SEED] |}.

(** The cells after cell 2. *)
Definition after_seeding : nb namespace :=
  cell_5 ;;
  f <- cell_6 ;;
  d <- cell_7 f ;;
  '(t, r) <- testing_pretrained d ;;
  s <- train_from_scratch d ;;
  ret {| ns_frames := f; ns_datasets := d; inference_forecast_trainer := t;
         result := r; ns_scratch := s |}.

(** The from-scratch way with cell 2 left out.  This is not the notebook:
    it is what the seeding is compared against. *)
Definition scratch_without_seeding : nb scratch :=
  cell_5 ;;
  f <- cell_6 ;;
  d <- cell_7 f ;;
  train_from_scratch d.

(** An action is steady when it only appends to the log and leaves the
    source of each generator as it is; every call but the three seeding
    calls is. *)
Definition sources (k : kernel) : Rng.origin * Rng.origin * Rng.origin :=
  (Rng.source (torch_rng k), Rng.source (random_rng k), Rng.source (np_rng k)).

Definition steady {A : Type} (c : nb A) : Prop :=
  forall w k,
    (exists l, log (snd (c w k)) = log k ++ l)
    /\ sources (snd (c w k)) = sources k.

(** ** Patches

    Cell 12 asks for patches of [patch_length] steps, one every
    [patch_stride = patch_length] steps, over a window of
    [context_length] steps.  The patches are cut by the model's code in
    transformers, which the notebook only calls: where in the window the
    first patch starts is not fixed by the notebook and is a parameter,
    [sequence_start], here. *)

(** The [patch_stride] cell 12 passes. *)
Definition patch_stride : Z := patch_length.

(** The steps of patch [j]. *)
Definition patch (sequence_start j : Z) : RangeIndex.t :=
  {| RangeIndex.start := sequence_start + j * patch_stride;
     RangeIndex.stop := sequence_start + j * patch_stride + patch_length |}.

(** Step [t] is in one of the first [n] patches. *)
Definition in_some_patch (sequence_start n t : Z) : Prop :=
  exists j, 0 <= j < n /\ RangeIndex.mem t (patch sequence_start j) = true.

(* ===================================================================== *)
(** * The source text of the notebook *)
(* ===================================================================== *)

(** The code cells as syntax, for what can only be said of the text:
    which names the notebook imports, which it defines and where it uses
    them. *)
Module Src.

Local Set Warnings "-register-all".

Inductive expr :=
| EName (id : string)
| EAttr (e : expr) (attr : string)
| ECall (f : expr) (args : list expr) (kw : list (string * expr))
| ENum (n : Z)
| EFloat (x : pyfloat)
| EStr (s : string)
| EFStr (parts : list expr)
| EBool (b : bool)
| ENone
| EList (l : list expr)
| EBin (op : string) (l r : expr)
| EIndex (e i : expr).

Inductive stmt :=
| Import (module : string) (asname : option string)
| ImportFrom (module : string) (names : list string)
| Assign (target : string) (value : expr)
| Expr (e : expr)
| FunctionDef (name : string)
| ClassDef (name : string)
| Comment (text : string).

(** How a name is bound. *)
Inductive binder :=
| Imported (module : string)
| Assigned
| Defined.

Definition binds (s : stmt) : list (string * binder) :=
  match s with
  | Import m None => [(m, Imported m)]
  | Import m (Some a) => [(a, Imported m)]
  | ImportFrom m names => map (fun x => (x, Imported m)) names
  | Assign x _ => [(x, Assigned)]
  | Expr _ => []
  | FunctionDef x => [(x, Defined)]
  | ClassDef x => [(x, Defined)]
  | Comment _ => []
  end.

(** How a name is used in an expression. *)
Inductive usage :=
| Callee (arguments : nat)
| Receiver (method : string) (arguments : nat)
| Plain.

Fixpoint uses (e : expr) : list (string * usage) :=
  match e with
  | EName x => [(x, Plain)]
  | EAttr e' _ => uses e'
  | ECall f args kw =>
      let n := (List.length args + List.length kw)%nat in
      match f with
      | EName x => [(x, Callee n)]
      | EAttr (EName x) m => [(x, Receiver m n)]
      | _ => uses f
      end
      ++ flat_map uses args
      ++ flat_map (fun p => match p with (_, v) => uses v end) kw
  | EFStr parts => flat_map uses parts
  | EList l => flat_map uses l
  | EBin _ l r => uses l ++ uses r
  | EIndex e' i => uses e' ++ uses i
  | ENum _ | EFloat _ | EStr _ | EBool _ | ENone => []
  end.

Definition stmt_uses (s : stmt) : list (string * usage) :=
  match s with
  | Assign _ v => uses v
  | Expr e => uses e
  | _ => []
  end.

(** The last component of the name a call is made through. *)
Definition called_as (f : expr) : string :=
  match f with
  | EName x => x
  | EAttr _ m => m
  | _ => ""
  end.

(** The calls of an expression in the order Python makes them: the
    arguments first, then the call. *)
Fixpoint calls (e : expr) : list string :=
  match e with
  | ECall f args kw =>
      calls f
      ++ flat_map calls args
      ++ flat_map (fun p => match p with (_, v) => calls v end) kw
      ++ [called_as f]
  | EAttr e' _ => calls e'
  | EFStr parts => flat_map calls parts
  | EList l => flat_map calls l
  | EBin _ l r => calls l ++ calls r
  | EIndex e' i => calls e' ++ calls i
  | EName _ | ENum _ | EFloat _ | EStr _ | EBool _ | ENone => []
  end.

Definition stmt_calls (s : stmt) : list string :=
  match s with
  | Assign _ v => calls v
  | Expr e => calls e
  | _ => []
  end.

(** Integer expressions, in an environment of earlier assignments. *)
Fixpoint eval (env : list (string * Z)) (e : expr) : option Z :=
  match e with
  | ENum n => Some n
  | EName x =>
      match find (fun p => String.eqb (fst p) x) env with
      | Some p => Some (snd p)
      | None => None
      end
  | EBin op l r =>
      match eval env l, eval env r with
      | Some a, Some b =>
          if String.eqb op "*" then Some (a * b)
          else if String.eqb op "+" then Some (a + b)
          else if String.eqb op "-" then Some (a - b)
          else None
      | _, _ => None
      end
  | _ => None
  end.

(** Run the integer assignments of a cell, the later ones seeing the
    earlier ones; other statements leave the environment as it is. *)
Fixpoint assign_ints (env : list (string * Z)) (l : list stmt) : list (string * Z) :=
  match l with
  | [] => env
  | Assign x v :: l' =>
      match eval env v with
      | Some n => assign_ints ((x, n) :: env) l'
      | None => assign_ints env l'
      end
  | _ :: l' => assign_ints env l'
  end.

Definition lookup (env : list (string * Z)) (x : string) : option Z :=
  match find (fun p => String.eqb (fst p) x) env with
  | Some p => Some (snd p)
  | None => None
  end.

(** The imports of a cell, each with the comment that heads its group. *)
Fixpoint import_groups (group : string) (l : list stmt)
    : list (string * string) :=
  match l with
  | [] => []
  | Comment c :: l' => import_groups c l'
  | Import m _ :: l' => (m, group) :: import_groups group l'
  | ImportFrom m _ :: l' => (m, group) :: import_groups group l'
  | _ :: l' => import_groups group l'
  end.

End Src.

(** The code cells, numbered by their position in the notebook; cells 0,
    3, 8, 11 and 15 are markdown and cell 18 holds only a comment.
    Comments on a line of their own are kept, those at the end of a
    statement are not. *)
Module Source.

Import Src.

Definition cell_1 : list stmt :=
  [Comment "Standard";
   Import "random" None;
   Import "numpy" (Some "np");
   Import "pandas" (Some "pd");
   Import "torch" None;
   Comment "Third Party";
   ImportFrom "transformers"
     ["EarlyStoppingCallback"; "PatchTSTConfig"; "PatchTSTForPrediction";
      "Trainer"; "TrainingArguments"];
   Comment "First Party";
   ImportFrom "tsfm_public.toolkit.dataset" ["ForecastDFDataset"];
   ImportFrom "tsfm_public.toolkit.time_series_preprocessor"
     ["TimeSeriesPreprocessor"];
   ImportFrom "tsfm_public.toolkit.util" ["select_by_index"]].

Definition cell_2 : list stmt :=
  [Comment "Set seed for reproducibility";
   Assign "SEED" (ENum 42);
   Expr (ECall (EAttr (EName "torch") "manual_seed") [EName "SEED"] []);
   Expr (ECall (EAttr (EName "random") "seed") [EName "SEED"] []);
   Expr (ECall (EAttr (EAttr (EName "np") "random") "seed") [EName "SEED"] [])].

Definition cell_4 : list stmt :=
  [Assign "dataset" (EStr "ETTh1");
   Assign "num_workers" (ENum 8);
   Assign "batch_size" (ENum 32);
   Assign "context_length" (ENum 512);
   Assign "forecast_horizon" (ENum 96);
   Assign "patch_length" (ENum 12)].

(** [12 * 30 * 24] and the like, as Python groups them. *)
Definition months (m : Z) : expr :=
  EBin "*" (EBin "*" (ENum m) (ENum 30)) (ENum 24).

Definition cell_5 : list stmt :=
  [Expr (ECall (EName "print")
           [EFStr [EStr "Loading target dataset: "; EName "dataset"]] []);
   Assign "dataset_path"
     (EFStr [EStr "https://raw.githubusercontent.com/zhouhaoyi/ETDataset/main/ETT-small/";
             EName "dataset"; EStr ".csv"]);
   Assign "timestamp_column" (EStr "date");
   Assign "id_columns" (EList []);
   Assign "forecast_columns"
     (EList [EStr "HUFL"; EStr "HULL"; EStr "MUFL"; EStr "MULL";
             EStr "LUFL"; EStr "LULL"; EStr "OT"]);
   Assign "train_start_index" ENone;
   Assign "train_end_index" (months 12);
   Comment "we shift the start of the validation/test period back by context length so that";
   Comment "the first validation/test timestamp is immediately following the training data";
   Assign "valid_start_index" (EBin "-" (months 12) (EName "context_length"));
   Assign "valid_end_index" (EBin "+" (months 12) (months 4));
   Assign "test_start_index"
     (EBin "-" (EBin "+" (months 12) (months 4)) (EName "context_length"));
   Assign "test_end_index" (EBin "+" (months 12) (months 8))].

Definition select (start stop : string) : expr :=
  ECall (EName "select_by_index") [EName "data"]
    [("id_columns", EName "id_columns");
     ("start_index", EName start);
     ("end_index", EName stop)].

Definition cell_6 : list stmt :=
  [Assign "data"
     (ECall (EAttr (EName "pd") "read_csv") [EName "dataset_path"]
        [("parse_dates", EList [EName "timestamp_column"])]);
   Assign "train_data" (select "train_start_index" "train_end_index");
   Assign "valid_data" (select "valid_start_index" "valid_end_index");
   Assign "test_data" (select "test_start_index" "test_end_index");
   Assign "tsp"
     (ECall (EName "TimeSeriesPreprocessor") []
        [("timestamp_column", EName "timestamp_column");
         ("id_columns", EName "id_columns");
         ("target_columns", EName "forecast_columns");
         ("scaling", EBool true)]);
   Expr (ECall (EAttr (EName "tsp") "train") [EName "train_data"] [])].

Definition windowed (frame : string) : expr :=
  ECall (EName "ForecastDFDataset")
    [ECall (EAttr (EName "tsp") "preprocess") [EName frame] []]
    [("id_columns", EName "id_columns");
     ("target_columns", EName "forecast_columns");
     ("context_length", EName "context_length");
     ("prediction_length", EName "forecast_horizon")].

Definition cell_7 : list stmt :=
  [Assign "train_dataset" (windowed "train_data");
   Assign "valid_dataset" (windowed "valid_data");
   Assign "test_dataset" (windowed "test_data")].

Definition cell_9 : list stmt :=
  [Expr (ECall (EName "print") [EStr "Loading pretrained model"] []);
   Assign "inference_forecast_model"
     (ECall (EAttr (EName "PatchTSTForPrediction") "from_pretrained")
        [EStr "ibm-granite/granite-timeseries-patchtst"] []);
   Expr (ECall (EName "print") [EStr "Done"] [])].

Definition cell_10 : list stmt :=
  [Assign "train_args"
     (ECall (EName "TrainingArguments") []
        [("output_dir", EStr "./checkpoint/patchtst/direct/train/output/");
         ("label_names", EList [EStr "future_values"])]);
   Assign "inference_forecast_trainer"
     (ECall (EName "Trainer") []
        [("model", EName "inference_forecast_model");
         ("args", EName "train_args")]);
   Expr (ECall (EName "print") [EStr "

Doing testing on Etth1/test data"] []);
   Assign "result"
     (ECall (EAttr (EName "inference_forecast_trainer") "evaluate")
        [EName "test_dataset"] []);
   Expr (ECall (EName "print") [EName "result"] [])].

Definition cell_12 : list stmt :=
  [Assign "config"
     (ECall (EName "PatchTSTConfig") []
        [("do_mask_input", EBool false);
         ("context_length", EName "context_length");
         ("patch_length", EName "patch_length");
         ("num_input_channels",
          ECall (EName "len") [EName "forecast_columns"] []);
         ("patch_stride", EName "patch_length");
         ("prediction_length", EName "forecast_horizon");
         ("d_model", ENum 128);
         ("num_attention_heads", ENum 16);
         ("num_hidden_layers", ENum 3);
         ("ffn_dim", ENum 512);
         ("dropout", EFloat "0.2");
         ("head_dropout", EFloat "0.2");
         ("pooling_type", ENone);
         ("channel_attention", EBool false);
         ("scaling", EStr "std");
         ("loss", EStr "mse");
         ("pre_norm", EBool true);
         ("norm_type", EStr "batchnorm")]);
   Assign "model"
     (ECall (EName "PatchTSTForPrediction") [] [("config", EName "config")])].

Definition cell_13 : list stmt :=
  [Assign "train_args"
     (ECall (EName "TrainingArguments") []
        [("output_dir", EStr "./checkpoint/patchtst/direct/train/output/");
         ("overwrite_output_dir", EBool true);
         ("learning_rate", EFloat "0.0001");
         ("num_train_epochs", ENum 100);
         ("do_eval", EBool true);
         ("evaluation_strategy", EStr "epoch");
         ("per_device_train_batch_size", EName "batch_size");
         ("per_device_eval_batch_size", EName "batch_size");
         ("dataloader_num_workers", ENum 1);
         ("save_strategy", EStr "epoch");
         ("logging_strategy", EStr "epoch");
         ("save_total_limit", ENum 3);
         ("logging_dir", EStr "./checkpoint/patchtst/direct/train/logs/");
         ("load_best_model_at_end", EBool true);
         ("metric_for_best_model", EStr "eval_loss");
         ("greater_is_better", EBool false);
         ("label_names", EList [EStr "future_values"])]);
   Comment "Create a new early stopping callback with faster convergence properties";
   Assign "early_stopping_callback"
     (ECall (EName "EarlyStoppingCallback") []
        [("early_stopping_patience", ENum 5);
         ("early_stopping_threshold", EFloat "0.001")]);
   Assign "trainer"
     (ECall (EName "Trainer") []
        [("model", EName "model");
         ("args", EName "train_args");
         ("train_dataset", EName "train_dataset");
         ("eval_dataset", EName "valid_dataset");
         ("callbacks", EList [EName "early_stopping_callback"])]);
   Expr (ECall (EName "print") [EStr "

Doing forecasting training on Etth1/train"] []);
   Expr (ECall (EAttr (EName "trainer") "train") [] [])].

Definition cell_14 : list stmt :=
  [Expr (ECall (EAttr (EName "trainer") "evaluate") [EName "test_dataset"] [])].

Definition cell_16 : list stmt :=
  [Assign "output"
     (ECall (EAttr (EName "trainer") "predict") [EName "test_dataset"] [])].

Definition cell_17 : list stmt :=
  [Expr (EAttr (EIndex (EAttr (EName "output") "predictions") (ENum 0)) "shape")].

Definition cell_18 : list stmt :=
  [Comment "96 step forecasting horizon, for 7 channels"].

(** All statements of the notebook, in document order. *)
Definition program : list stmt :=
  cell_1 ++ cell_2 ++ cell_4 ++ cell_5 ++ cell_6 ++ cell_7 ++ cell_9
  ++ cell_10 ++ cell_12 ++ cell_13 ++ cell_14 ++ cell_16 ++ cell_17
  ++ cell_18.

(** The ways a name is bound anywhere in the notebook. *)
Definition binders_of (x : string) : list binder :=
  flat_map (fun s =>
    flat_map (fun p => if String.eqb (fst p) x then [snd p] else []) (binds s))
    program.

(** The ways a name is used anywhere in the notebook. *)
Definition uses_of (x : string) : list usage :=
  flat_map (fun s =>
    flat_map (fun p => if String.eqb (fst p) x then [snd p] else [])
      (stmt_uses s))
    program.

(** The statements that define a function or a class. *)
Definition definitions : list stmt :=
  filter (fun s =>
    match s with FunctionDef _ | ClassDef _ => true | _ => false end) program.

(** A module that is not part of the notebook: the transformers package
    or the tsfm_public package. *)
Definition from_framework (m : string) : bool :=
  String.eqb m "transformers" || String.prefix "tsfm_public." m.

End Source.

(** The name a logged call goes by in the text. *)
Definition call_name (c : Call.t) : string :=
  match c with
  | Call.torch_manual_seed _ => "manual_seed"
  | Call.random_seed _ => "seed"
  | Call.np_random_seed _ => "seed"
  | Call.print _ => "print"
  | Call.print_result _ => "print"
  | Call.read_csv _ _ => "read_csv"
  | Call.select_by_index _ _ _ _ => "select_by_index"
  | Call.TimeSeriesPreprocessor _ _ _ _ => "TimeSeriesPreprocessor"
  | Call.tsp_train _ _ => "train"
  | Call.tsp_preprocess _ _ => "preprocess"
  | Call.ForecastDFDataset _ _ _ _ _ => "ForecastDFDataset"
  | Call.from_pretrained _ => "from_pretrained"
  | Call.TrainingArguments _ => "TrainingArguments"
  | Call.Trainer _ _ _ _ _ => "Trainer"
  | Call.evaluate _ _ => "evaluate"
  | Call.PatchTSTConfig _ => "PatchTSTConfig"
  | Call.PatchTSTForPrediction _ => "PatchTSTForPrediction"
  | Call.EarlyStoppingCallback _ => "EarlyStoppingCallback"
  | Call.train _ => "train"
  | Call.predict _ _ => "predict"
  | Call.shape _ => "shape"
  end.

(** A use that calls the name, or a method of it, with arguments. *)
Definition is_call_site (u : Src.usage) : bool :=
  match u with
  | Src.Callee n => (0 <? n)%nat
  | Src.Receiver _ n => (0 <? n)%nat
  | Src.Plain => false
  end.

(* ===================================================================== *)
(** * The notebook with other settings *)
(* ===================================================================== *)

(** The notebook asks its reader to "adjust the following parameters to
    suit your application".  Here the variables of cells 2 and 4 and the
    forecast columns of cell 5 are arguments, and the cells that read
    them are the same cells as above with the constants replaced by the
    arguments.  The bounds of the splits that cell 5 writes as numbers
    stay as they are. *)
Module Adjusted.

Record settings := {
  SEED : Z;
  dataset : string;
  num_workers : Z;
  batch_size : Z;
  context_length : Z;
  forecast_horizon : Z;
  patch_length : Z;
  forecast_columns : list string
}.

Section Cells.

Variable s : settings.

(** Cell 5. *)
Definition dataset_path : string :=
  ("https://raw.githubusercontent.com/zhouhaoyi/ETDataset/main/ETT-small/"
   ++ dataset s ++ ".csv")%string.

Definition valid_start_index : Z := 12 * 30 * 24 - context_length s.

Definition test_start_index : Z := 12 * 30 * 24 + 4 * 30 * 24 - context_length s.

Definition cell_2 : nb unit :=
  Act.torch_manual_seed (SEED s) ;;
  Act.random_seed (SEED s) ;;
  Act.np_random_seed (SEED s).

Definition cell_5 : nb unit :=
  Act.print ("Loading target dataset: " ++ dataset s)%string.

Definition cell_6 : nb frames :=
  data <- Act.read_csv dataset_path [timestamp_column] ;;
  train_data <- Act.select_by_index data id_columns
                  train_start_index (Some train_end_index) ;;
  valid_data <- Act.select_by_index data id_columns
                  (Some valid_start_index) (Some valid_end_index) ;;
  test_data <- Act.select_by_index data id_columns
                 (Some test_start_index) (Some test_end_index) ;;
  tsp <- Act.TimeSeriesPreprocessor timestamp_column id_columns
           (forecast_columns s) true ;;
  tsp <- Act.tsp_train tsp train_data ;;
  ret {| data := data; train_data := train_data; valid_data := valid_data;
         test_data := test_data; tsp := tsp |}.

Definition cell_7 (f : frames) : nb datasets :=
  df <- Act.tsp_preprocess (tsp f) (train_data f) ;;
  train_dataset <- Act.ForecastDFDataset df id_columns (forecast_columns s)
                     (context_length s) (forecast_horizon s) ;;
  df <- Act.tsp_preprocess (tsp f) (valid_data f) ;;
  valid_dataset <- Act.ForecastDFDataset df id_columns (forecast_columns s)
                     (context_length s) (forecast_horizon s) ;;
  df <- Act.tsp_preprocess (tsp f) (test_data f) ;;
  test_dataset <- Act.ForecastDFDataset df id_columns (forecast_columns s)
                    (context_length s) (forecast_horizon s) ;;
  ret {| train_dataset := train_dataset; valid_dataset := valid_dataset;
         test_dataset := test_dataset |}.

Definition cell_12 : nb (PatchTSTConfig.t * PatchTSTForPrediction.t) :=
  config <- Act.PatchTSTConfig
    {| PatchTSTConfig.do_mask_input := false;
       PatchTSTConfig.context_length := context_length s;
       PatchTSTConfig.patch_length := patch_length s;
       PatchTSTConfig.num_input_channels := Py.len (forecast_columns s);
       PatchTSTConfig.patch_stride := patch_length s;
       PatchTSTConfig.prediction_length := forecast_horizon s;
       PatchTSTConfig.d_model := 128;
       PatchTSTConfig.num_attention_heads := 16;
       PatchTSTConfig.num_hidden_layers := 3;
       PatchTSTConfig.ffn_dim := 512;
       PatchTSTConfig.dropout := "0.2";
       PatchTSTConfig.head_dropout := "0.2";
       PatchTSTConfig.pooling_type := None;
       PatchTSTConfig.channel_attention := false;
       PatchTSTConfig.scaling := "std";
       PatchTSTConfig.loss := "mse";
       PatchTSTConfig.pre_norm := true;
       PatchTSTConfig.norm_type := "batchnorm" |} ;;
  model <- Act.PatchTSTForPrediction config ;;
  ret (config, model).

Definition cell_13 (model : PatchTSTForPrediction.t) (d : datasets)
    : nb Trainer.t :=
  train_args <- Act.TrainingArguments
    [("output_dir", PStr "./checkpoint/patchtst/direct/train/output/");
     ("overwrite_output_dir", PBool true);
     ("learning_rate", PFloat "0.0001");
     ("num_train_epochs", PInt 100);
     ("do_eval", PBool true);
     ("evaluation_strategy", PStr "epoch");
     ("per_device_train_batch_size", PInt (batch_size s));
     ("per_device_eval_batch_size", PInt (batch_size s));
     ("dataloader_num_workers", PInt 1);
     ("save_strategy", PStr "epoch");
     ("logging_strategy", PStr "epoch");
     ("save_total_limit", PInt 3);
     ("logging_dir", PStr "./checkpoint/patchtst/direct/train/logs/");
     ("load_best_model_at_end", PBool true);
     ("metric_for_best_model", PStr "eval_loss");
     ("greater_is_better", PBool false);
     ("label_names", PStrs ["future_values"])] ;;
  early_stopping_callback <- Act.EarlyStoppingCallback
    [("early_stopping_patience", PInt 5);
     ("early_stopping_threshold", PFloat "0.001")] ;;
  trainer <- Act.Trainer model train_args
               (Some (train_dataset d)) (Some (valid_dataset d))
               [early_stopping_callback] ;;
  Act.print "

Doing forecasting training on Etth1/train" ;;
  Act.train trainer.

Definition load_and_prepare : nb (frames * datasets) :=
  cell_2 ;;
  cell_5 ;;
  f <- cell_6 ;;
  d <- cell_7 f ;;
  ret (f, d).

Definition train_from_scratch (d : datasets) : nb scratch :=
  '(config, model) <- cell_12 ;;
  trainer <- cell_13 model d ;;
  e <- cell_14 trainer d ;;
  output <- cell_16 trainer d ;;
  s <- cell_17 output ;;
  ret {| config := config; trainer := trainer; Out_23 := e;
         output := output; Out_25 := s |}.

Definition notebook : nb namespace :=
  '(f, d) <- load_and_prepare ;;
  '(t, r) <- testing_pretrained d ;;
  s <- train_from_scratch d ;;
  ret {| ns_frames := f; ns_datasets := d; inference_forecast_trainer := t;
         result := r; ns_scratch := s |}.

Definition scratch_path : nb (frames * datasets * scratch) :=
  '(f, d) <- load_and_prepare ;;
  s <- train_from_scratch d ;;
  ret (f, d, s).

(** The CSV of the chosen dataset can be read and reaches to the end of
    the test split. *)
Definition enough_rows (w : world) : Prop :=
  exists n, csv w dataset_path = Some n /\ test_end_index <= n.

(** The checkpoint of cell 9 was built for the chosen windows. *)
Definition checkpoint_fits (w : world) : Prop :=
  exists c,
    hub w "ibm-granite/granite-timeseries-patchtst" = Some c
    /\ PatchTSTConfig.context_length c = context_length s
    /\ PatchTSTConfig.prediction_length c = forecast_horizon s
    /\ PatchTSTConfig.num_input_channels c = Py.len (forecast_columns s).

End Cells.

End Adjusted.

(** The settings the notebook comes with. *)
Definition notebook_settings : Adjusted.settings :=
  {| Adjusted.SEED := SEED;
     Adjusted.dataset := dataset;
     Adjusted.num_workers := num_workers;
     Adjusted.batch_size := batch_size;
     Adjusted.context_length := context_length;
     Adjusted.forecast_horizon := forecast_horizon;
     Adjusted.patch_length := patch_length;
     Adjusted.forecast_columns := forecast_columns |}.


(** Rows that some sample of a dataset gives the model as context. *)
Definition is_context (ds : ForecastDFDataset.t) (x : Z) : Prop :=
  exists i past future,
    ForecastDFDataset.getitem ds i = Some (past, future) /\ In x past.





(** ** Names in the text *)

(** The names Python provides without an import, as far as the notebook
    uses them. *)
Definition builtins : list string := ["print"; "len"].

(** Every name a statement reads is bound by a statement before it. *)
Fixpoint scoped (bound : list string) (l : list Src.stmt) : bool :=
  match l with
  | [] => true
  | st :: l' =>
      forallb (fun p => existsb (String.eqb (fst p)) bound) (Src.stmt_uses st)
      && scoped (map fst (Src.binds st) ++ bound) l'
  end.

(** The names the statements of a program assign, and those they read. *)
Definition assigned (l : list Src.stmt) : list string :=
  flat_map (fun st =>
    match st with Src.Assign x _ => [x] | _ => [] end) l.

Definition read (l : list Src.stmt) : list string :=
  flat_map (fun st => map fst (Src.stmt_uses st)) l.

(** The values the calls of [callee] give to a keyword, one for each
    call at the top of a statement that passes the keyword. *)
Definition keywords_of (callee key : string) (l : list Src.stmt)
    : list Src.expr :=
  flat_map (fun st =>
    match st with
    | Src.Assign _ (Src.ECall (Src.EName f) _ kw)
    | Src.Expr (Src.ECall (Src.EName f) _ kw) =>
        if String.eqb f callee then
          flat_map (fun p => if String.eqb (fst p) key then [snd p] else []) kw
        else []
    | _ => []
    end) l.


(** The names a program assigns and never reads. *)
Definition never_read (l : list Src.stmt) : list string :=
  filter (fun x => negb (existsb (String.eqb x) (read l))) (assigned l).

(** ** Settings to try *)

(** A context longer than the validation period. *)
Definition long_context_settings : Adjusted.settings :=
  {| Adjusted.SEED := 42; Adjusted.dataset := "ETTh1";
     Adjusted.num_workers := 8; Adjusted.batch_size := 32;
     Adjusted.context_length := 3000;
     Adjusted.forecast_horizon := 96;
     Adjusted.patch_length := 12;
     Adjusted.forecast_columns := forecast_columns |}.




(** The statement of cell 16. *)
Definition predict_statement : Src.stmt :=
  Src.Assign "output"
    (Src.ECall (Src.EAttr (Src.EName "trainer") "predict")
       [Src.EName "test_dataset"] []).

(* ===================================================================== *)
(** * Facts about ranges and slices *)
(* ===================================================================== *)

Section RangeFacts.

Lemma range_length lo n : length (Py.range lo n) = n.
Proof.
  revert lo; induction n as [|n IH]; intros lo; simpl; [reflexivity|].
  now rewrite IH.
Qed.

Lemma range_In lo n x :
  In x (Py.range lo n) <-> lo <= x < lo + Z.of_nat n.
Proof.
  revert lo; induction n as [|n IH]; intros lo; simpl.
  - split; [tauto | lia].
  - rewrite IH. lia.
Qed.

Lemma range_skipn k lo n :
  skipn k (Py.range lo n) = Py.range (lo + Z.of_nat k) (n - k).
Proof.
  revert lo n; induction k as [|k IH]; intros lo n.
  - rewrite Nat.sub_0_r. simpl. f_equal. lia.
  - destruct n as [|n]; [reflexivity|].
    simpl skipn. rewrite IH. simpl Nat.sub. f_equal. lia.
Qed.

Lemma range_firstn k lo n :
  firstn k (Py.range lo n) = Py.range lo (Nat.min k n).
Proof.
  revert lo n; induction k as [|k IH]; intros lo n; [reflexivity|].
  destruct n as [|n]; [reflexivity|].
  simpl. now rewrite IH.
Qed.

Lemma clamp_bounds n i : 0 <= n -> 0 <= Py.clamp n i <= n.
Proof.
  intros Hn. unfold Py.clamp.
  destruct (Z.ltb_spec i 0); lia.
Qed.

Lemma clamp_inside n i : 0 <= i <= n -> Py.clamp n i = i.
Proof.
  intros H. unfold Py.clamp.
  destruct (Z.ltb_spec i 0); lia.
Qed.

(** A slice with both bounds inside a range is the range between them. *)
Lemma slice_range (lo a b : Z) (n : nat) :
  0 <= a <= b -> b <= Z.of_nat n ->
  Py.slice (Some a) (Some b) (Py.range lo n)
  = Py.range (lo + a) (Z.to_nat (b - a)).
Proof.
  intros Hab Hb. unfold Py.slice.
  rewrite range_length, !clamp_inside by lia.
  rewrite range_skipn, range_firstn.
  f_equal; lia.
Qed.

End RangeFacts.

(* ===================================================================== *)
(** * Facts about the library models *)
(* ===================================================================== *)

Section IndexFacts.

Lemma labels_length r :
  Py.len (RangeIndex.labels r) = RangeIndex.len r.
Proof.
  unfold Py.len, RangeIndex.labels, RangeIndex.len.
  rewrite range_length. lia.
Qed.

Lemma labels_In r x :
  In x (RangeIndex.labels r) <-> RangeIndex.start r <= x < RangeIndex.stop r.
Proof.
  unfold RangeIndex.labels. rewrite range_In. lia.
Qed.

Lemma mem_In r x :
  RangeIndex.mem x r = true <-> In x (RangeIndex.labels r).
Proof.
  unfold RangeIndex.mem.
  rewrite labels_In, andb_true_iff, Z.leb_le, Z.ltb_lt. tauto.
Qed.

(** Slicing the index computes the labels of the sliced rows. *)
Lemma slice_labels a b r :
  RangeIndex.labels (RangeIndex.slice a b r)
  = Py.slice a b (RangeIndex.labels r).
Proof.
  unfold Py.slice. fold (Py.len (RangeIndex.labels r)).
  rewrite labels_length.
  unfold RangeIndex.slice, RangeIndex.labels at 1. cbn [RangeIndex.start RangeIndex.stop].
  set (n := RangeIndex.len r).
  assert (Hn : 0 <= n) by (unfold n, RangeIndex.len; lia).
  set (lo := match a with Some i => Py.clamp n i | None => 0 end).
  set (hi := match b with Some i => Py.clamp n i | None => n end).
  assert (Hlo : 0 <= lo <= n).
  { unfold lo. destruct a; [apply clamp_bounds; assumption | lia]. }
  assert (Hhi : 0 <= hi <= n).
  { unfold hi. destruct b; [apply clamp_bounds; assumption | lia]. }
  unfold RangeIndex.labels. rewrite range_skipn, range_firstn.
  unfold n, RangeIndex.len in *.
  f_equal; lia.
Qed.

(** A slice of the frame read from a CSV of [n] rows, with both bounds
    inside it, holds the rows between the bounds. *)
Lemma slice_inside a b n :
  0 <= a <= b -> b <= n ->
  RangeIndex.slice (Some a) (Some b)
    {| RangeIndex.start := 0; RangeIndex.stop := Z.max 0 n |}
  = {| RangeIndex.start := a; RangeIndex.stop := b |}.
Proof.
  intros Hab Hb. unfold RangeIndex.slice, RangeIndex.len. cbn [RangeIndex.start RangeIndex.stop].
  rewrite !clamp_inside by lia.
  f_equal; lia.
Qed.

Lemma slice_from_start b n :
  0 <= b <= n ->
  RangeIndex.slice None (Some b)
    {| RangeIndex.start := 0; RangeIndex.stop := Z.max 0 n |}
  = {| RangeIndex.start := 0; RangeIndex.stop := b |}.
Proof.
  intros Hb. unfold RangeIndex.slice, RangeIndex.len. cbn [RangeIndex.start RangeIndex.stop].
  rewrite !clamp_inside by lia.
  f_equal; lia.
Qed.

End IndexFacts.

Section DatasetFacts.

Variable ds : ForecastDFDataset.t.
Hypothesis context_nonneg : 0 <= ForecastDFDataset.context_length ds.
Hypothesis horizon_nonneg : 0 <= ForecastDFDataset.prediction_length ds.

Let first_row := RangeIndex.start (DataFrame.index (ForecastDFDataset.data ds)).

(** Sample [i] is the window that starts at row [i] of the frame: the
    context rows and, right after them, the rows to forecast. *)
Lemma getitem_rows i :
  0 <= i < ForecastDFDataset.len ds ->
  ForecastDFDataset.getitem ds i
  = Some (Py.range (first_row + i)
            (Z.to_nat (ForecastDFDataset.context_length ds)),
          Py.range (first_row + i + ForecastDFDataset.context_length ds)
            (Z.to_nat (ForecastDFDataset.prediction_length ds))).
Proof.
  intros Hi. unfold ForecastDFDataset.getitem.
  destruct (Z.leb_spec 0 i); [|lia].
  destruct (Z.ltb_spec i (ForecastDFDataset.len ds)); [|lia].
  cbn [andb].
  unfold ForecastDFDataset.len, DataFrame.len, RangeIndex.len in Hi.
  unfold RangeIndex.labels.
  rewrite !slice_range by lia.
  unfold first_row.
  f_equal. f_equal; f_equal; lia.
Qed.

(** There is no sample past the last position at which a window fits. *)
Lemma getitem_none i :
  ForecastDFDataset.len ds <= i -> ForecastDFDataset.getitem ds i = None.
Proof.
  intros Hi. unfold ForecastDFDataset.getitem.
  destruct (Z.ltb_spec i (ForecastDFDataset.len ds)); [lia|].
  now rewrite andb_false_r.
Qed.

(** The last window ends with the last row of the frame. *)
Lemma last_window_ends_frame :
  first_row <= RangeIndex.stop (DataFrame.index (ForecastDFDataset.data ds)) ->
  0 < ForecastDFDataset.len ds ->
  first_row + (ForecastDFDataset.len ds - 1)
  + ForecastDFDataset.context_length ds
  + ForecastDFDataset.prediction_length ds
  = RangeIndex.stop (DataFrame.index (ForecastDFDataset.data ds)).
Proof.
  unfold ForecastDFDataset.len, DataFrame.len, RangeIndex.len, first_row.
  lia.
Qed.

End DatasetFacts.

Section PreprocessorFacts.

(** Preprocessing with scaling succeeds only on a fitted preprocessor,
    and what it returns is scaled by the fitted scaler. *)
Lemma preprocess_fitted tsp0 df df' :
  TimeSeriesPreprocessor.scaling tsp0 = true ->
  TimeSeriesPreprocessor.preprocess tsp0 df = Ok df' ->
  exists s, TimeSeriesPreprocessor.scaler_dict tsp0 = Some s
            /\ DataFrame.scaled_by df' = Some s
            /\ DataFrame.index df' = DataFrame.index df.
Proof.
  intros Hs. unfold TimeSeriesPreprocessor.preprocess. rewrite Hs.
  destruct (TimeSeriesPreprocessor.scaler_dict tsp0) as [s|]; [|discriminate].
  intros [= <-]. exists s. auto.
Qed.

(** A preprocessor that has only been constructed raises. *)
Lemma preprocess_unfitted ts ids cols df :
  exists e,
    TimeSeriesPreprocessor.preprocess
      (TimeSeriesPreprocessor.init ts ids cols true) df = Raised e.
Proof. eexists. reflexivity. Qed.

(** The scaler is fitted on the rows of the frame given to [train], all
    of them and no others. *)
Lemma train_fits_given_rows tsp0 df :
  TimeSeriesPreprocessor.scaling tsp0 = true ->
  exists s,
    TimeSeriesPreprocessor.scaler_dict (TimeSeriesPreprocessor.train tsp0 df) = Some s
    /\ StandardScaler.fitted_rows s = DataFrame.index df
    /\ StandardScaler.n_samples_seen_ s = DataFrame.len df
    /\ StandardScaler.feature_names_in_ s = TimeSeriesPreprocessor.target_columns tsp0.
Proof.
  intros Hs. unfold TimeSeriesPreprocessor.train. rewrite Hs.
  eexists. cbn. repeat split.
Qed.

End PreprocessorFacts.

(* ===================================================================== *)
(** * Running the notebook *)
(* ===================================================================== *)

(** The ETTh1 world has the rows and the checkpoint. *)
Lemma etth1_enough_rows : enough_rows etth1_world.
Proof. exists 17420. split; [reflexivity | discriminate]. Qed.

Lemma etth1_checkpoint_fits : checkpoint_fits etth1_world.
Proof. eexists. split; [reflexivity | repeat split]. Qed.

Lemma overlap_In r1 r2 x :
  In x (RangeIndex.labels (overlap r1 r2))
  <-> In x (RangeIndex.labels r1) /\ In x (RangeIndex.labels r2).
Proof.
  rewrite !labels_In. unfold overlap. cbn [RangeIndex.start RangeIndex.stop].
  lia.
Qed.

(** ** Stepping through the cells *)

Lemma slice_rows a b n :
  0 <= a <= b -> b <= n ->
  RangeIndex.slice (Some a) (Some b)
    {| RangeIndex.start := 0; RangeIndex.stop := n |}
  = {| RangeIndex.start := a; RangeIndex.stop := b |}.
Proof.
  intros Hab Hb. rewrite <- (Z.max_r 0 n) at 1 by lia.
  now apply slice_inside.
Qed.

Lemma slice_first_rows b n :
  0 <= b <= n ->
  RangeIndex.slice None (Some b)
    {| RangeIndex.start := 0; RangeIndex.stop := n |}
  = {| RangeIndex.start := 0; RangeIndex.stop := b |}.
Proof.
  intros Hb. rewrite <- (Z.max_r 0 n) at 1 by lia.
  now apply slice_from_start.
Qed.

(** Unfold the cells and the actions down to the lookups in the world and
    to the slices, which depend on the world. *)
Ltac unfold_cells :=
  cbv beta iota delta
    [run notebook pretrained_path scratch_path load_and_prepare
     testing_pretrained train_from_scratch
     cell_2 cell_5 cell_6 cell_7 cell_9 cell_10 cell_12 cell_13 cell_14
     cell_16 cell_17
     bind ret called lift ask with_torch set_rngs fresh_kernel
     Act.torch_manual_seed Act.random_seed Act.np_random_seed Act.print
     Act.print_result Act.read_csv Act.select_by_index
     Act.TimeSeriesPreprocessor Act.tsp_train Act.tsp_preprocess
     Act.ForecastDFDataset Act.from_pretrained Act.TrainingArguments
     Act.EarlyStoppingCallback Act.Trainer Act.evaluate Act.PatchTSTConfig
     Act.PatchTSTForPrediction Act.train Act.predict Act.shape
     Util.select_by_index DataFrame.iloc
     torch_rng random_rng np_rng log DataFrame.index DataFrame.scaled_by
     train_start_index].

Ltac split_bounds :=
  cbv [train_end_index valid_start_index valid_end_index test_start_index
       test_end_index context_length] in *; lia.

(** Cells 2 to 7 in a world whose CSV has [n] rows. *)
Ltac run_prepare Hcsv :=
  unfold_cells; rewrite Hcsv;
  rewrite Z.max_r by split_bounds;
  unfold_cells;
  rewrite slice_first_rows, !slice_rows by split_bounds.

(* ===================================================================== *)
(** * The split indices *)
(* ===================================================================== *)

(** C1.  The split index arithmetic: training ends at row 8640 and starts
    at the beginning of the data ([train_start_index = None]); validation
    is rows 8128 to 11520 and test is rows 11008 to 14400, upper bounds
    excluded; the validation and test starts are the end of the preceding
    split minus [context_length], so each later split shares exactly
    [context_length = 512] rows with the one before it; and these values
    are the bounds of the three [select_by_index] calls, whose frames
    hold exactly those rows. *)
Theorem C1_split_indices (w : world) (e1 e2 e3 : Z) :
  enough_rows w ->
  train_start_index = None
  /\ train_end_index = 12 * 30 * 24 /\ train_end_index = 8640
  /\ valid_start_index = 8640 - 512 /\ valid_start_index = 8128
  /\ valid_end_index = 8640 + 4 * 30 * 24 /\ valid_end_index = 11520
  /\ test_start_index = 11520 - 512 /\ test_start_index = 11008
  /\ test_end_index = 11520 + 4 * 30 * 24 /\ test_end_index = 14400
  /\ valid_start_index = train_end_index - context_length
  /\ test_start_index = valid_end_index - context_length
  /\ context_length = 512
  /\ exists f d k',
       run load_and_prepare w (fresh_kernel e1 e2 e3) = (Ok (f, d), k')
       /\ select_by_index_bounds (log k')
          = [(train_start_index, Some train_end_index);
             (Some valid_start_index, Some valid_end_index);
             (Some test_start_index, Some test_end_index)]
       /\ (forall x, In x (RangeIndex.labels (DataFrame.index (train_data f)))
                     <-> 0 <= x < 8640)
       /\ (forall x, In x (RangeIndex.labels (DataFrame.index (valid_data f)))
                     <-> 8128 <= x < 11520)
       /\ (forall x, In x (RangeIndex.labels (DataFrame.index (test_data f)))
                     <-> 11008 <= x < 14400)
       /\ RangeIndex.len (overlap (DataFrame.index (train_data f))
                                  (DataFrame.index (valid_data f)))
          = context_length
       /\ RangeIndex.len (overlap (DataFrame.index (valid_data f))
                                  (DataFrame.index (test_data f)))
          = context_length.
Proof.
  intros [n [Hcsv Hn]].
  do 14 (split; [reflexivity|]).
  do 3 eexists. split.
  { run_prepare Hcsv. cbv. reflexivity. }
  split; [reflexivity|].
  do 3 (split; [intros x; rewrite labels_In; cbn; reflexivity|]).
  split; reflexivity.
Qed.

(** The split indices in the ETTh1 world. *)
Lemma C1_split_indices_witness :
  enough_rows etth1_world
  /\ exists f d k',
       run load_and_prepare etth1_world (fresh_kernel 0 0 0) = (Ok (f, d), k')
       /\ select_by_index_bounds (log k')
          = [(None, Some 8640); (Some 8128, Some 11520); (Some 11008, Some 14400)].
Proof.
  split.
  - exists 17420. split; [reflexivity | discriminate].
  - destruct (C1_split_indices etth1_world 0 0 0)
      as (_ & _ & _ & _ & _ & _ & _ & _ & _ & _ & _ & _ & _ & _
          & f & d & k' & Hrun & Hb & _).
    + exists 17420. split; [reflexivity | discriminate].
    + exists f, d, k'. split; [exact Hrun | exact Hb].
Defined.

(* ===================================================================== *)
(** * The fitted scaler *)
(* ===================================================================== *)

(** C9, as stated, fails: the scaler is fitted on a row of the validation
    slice.  Row 8128, the first row of [valid_data], is also one of the
    rows of [train_data] the statistics are computed from. *)
Lemma C9_counterexample :
  ~ (forall f d k' s x,
       run load_and_prepare etth1_world (fresh_kernel 0 0 0) = (Ok (f, d), k') ->
       TimeSeriesPreprocessor.scaler_dict (tsp f) = Some s ->
       In x (RangeIndex.labels (StandardScaler.fitted_rows s)) ->
       ~ In x (RangeIndex.labels (DataFrame.index (valid_data f)))
       /\ ~ In x (RangeIndex.labels (DataFrame.index (test_data f)))).
Proof.
  intros H.
  assert (E : exists f d k' s,
             run load_and_prepare etth1_world (fresh_kernel 0 0 0)
             = (Ok (f, d), k')
             /\ TimeSeriesPreprocessor.scaler_dict (tsp f) = Some s
             /\ In 8128 (RangeIndex.labels (StandardScaler.fitted_rows s))
             /\ In 8128 (RangeIndex.labels (DataFrame.index (valid_data f)))).
  { do 4 eexists. split; [cbv; reflexivity|].
    split; [reflexivity|].
    split; rewrite labels_In; cbn; lia. }
  destruct E as (f & d & k' & s & Hrun & Hs & Hfit & Hval).
  destruct (H f d k' s 8128 Hrun Hs Hfit) as [Hnot _].
  exact (Hnot Hval).
Qed.

(** C9, amended.  The scaler fitted by [tsp.train] has seen 8640 samples
    of the 7 forecast channels, as the notebook's output records, and
    8640 is [train_end_index = 12 * 30 * 24].  It is fitted once, on
    [train_data]: its statistics come from exactly the rows 0 to 8639 of
    the training slice, so from no row of the test slice and from no row
    at or after [train_end_index].  The rows it shares with the
    validation slice are that slice's first [context_length = 512] rows,
    8128 to 8639, which the validation slice takes from the training
    data. *)
Theorem C9_scaler_fitted_on_training_rows (w : world) (e1 e2 e3 : Z) :
  enough_rows w ->
  exists f d k' s,
    run load_and_prepare w (fresh_kernel e1 e2 e3) = (Ok (f, d), k')
    /\ train_frames (log k') = [train_data f]
    /\ TimeSeriesPreprocessor.scaler_dict (tsp f) = Some s
    /\ StandardScaler.n_samples_seen_ s = 8640
    /\ StandardScaler.n_samples_seen_ s = recorded_n_samples_seen_
    /\ StandardScaler.n_samples_seen_ s = train_end_index
    /\ train_end_index = 12 * 30 * 24
    /\ StandardScaler.n_features_in_ s = 7
    /\ StandardScaler.n_features_in_ s = recorded_n_features_in_
    /\ StandardScaler.feature_names_in_ s = forecast_columns
    /\ StandardScaler.feature_names_in_ s = recorded_feature_names_in_
    /\ StandardScaler.fitted_rows s = DataFrame.index (train_data f)
    /\ (forall x, In x (RangeIndex.labels (StandardScaler.fitted_rows s))
                  <-> 0 <= x < train_end_index)
    /\ (forall x, In x (RangeIndex.labels (StandardScaler.fitted_rows s)) ->
                  ~ In x (RangeIndex.labels (DataFrame.index (test_data f))))
    /\ (forall x, In x (RangeIndex.labels (StandardScaler.fitted_rows s)) ->
                  (In x (RangeIndex.labels (DataFrame.index (valid_data f)))
                   <-> valid_start_index <= x < train_end_index))
    /\ train_end_index - valid_start_index = context_length.
Proof.
  intros [n [Hcsv Hn]].
  do 4 eexists. split.
  { run_prepare Hcsv. cbv. reflexivity. }
  split; [reflexivity|].
  split; [reflexivity|].
  do 9 (split; [reflexivity|]).
  split; [intros x; rewrite labels_In; cbn; split_bounds|].
  split; [intros x; rewrite !labels_In; cbn; lia|].
  split; [intros x; rewrite !labels_In; cbn; split_bounds|].
  reflexivity.
Qed.

(** The fitted scaler in the ETTh1 world. *)
Lemma C9_scaler_fitted_on_training_rows_witness :
  enough_rows etth1_world
  /\ exists f s,
       TimeSeriesPreprocessor.scaler_dict (tsp f) = Some s
       /\ StandardScaler.n_samples_seen_ s = 8640
       /\ StandardScaler.fitted_rows s = DataFrame.index (train_data f).
Proof.
  split.
  - exists 17420. split; [reflexivity | discriminate].
  - destruct (C9_scaler_fitted_on_training_rows etth1_world 0 0 0)
      as (f & d & k' & s & _ & _ & Hs & Hn & _ & _ & _ & _ & _ & _ & _ & Hr & _).
    + exists 17420. split; [reflexivity | discriminate].
    + exists f, s. repeat split; assumption.
Defined.

(* ===================================================================== *)
(** * The whole notebook *)
(* ===================================================================== *)

(** The whole notebook in a world that has the rows and the checkpoint. *)
Ltac run_notebook Hcsv Hhub :=
  run_prepare Hcsv; cbv -[hub]; rewrite Hhub; cbv; reflexivity.

Ltac known_checkpoint c Hc1 Hc2 Hc3 :=
  destruct c; cbn in Hc1, Hc2, Hc3; subst.

(** C2.  [trainer.predict(test_dataset)] returns predictions whose first
    element has shape (2785, 96, 7), the shape the notebook records: 96
    is [forecast_horizon], 7 is [num_input_channels], the number of
    forecast columns, and 2785 is the number of windows of the test
    slice, [(test_end_index - test_start_index) -
    (context_length + forecast_horizon) + 1 = 3392 - 608 + 1].  The test
    dataset has a sample for each of these windows and none beyond. *)
Theorem C2_predictions_shape (w : world) (e1 e2 e3 : Z) :
  enough_rows w -> checkpoint_fits w ->
  exists ns k',
    run notebook w (fresh_kernel e1 e2 e3) = (Ok ns, k')
    /\ Out_25 (ns_scratch ns) = (2785, 96, 7)
    /\ Out_25 (ns_scratch ns) = recorded_predictions_shape
    /\ Out_25 (ns_scratch ns)
       = Trainer.predictions_0_shape (output (ns_scratch ns))
    /\ Trainer.predict (trainer (ns_scratch ns)) (test_dataset (ns_datasets ns))
       = Ok (output (ns_scratch ns))
    /\ Out_25 (ns_scratch ns)
       = (ForecastDFDataset.len (test_dataset (ns_datasets ns)),
          forecast_horizon,
          PatchTSTConfig.num_input_channels (config (ns_scratch ns)))
    /\ forecast_horizon = 96
    /\ PatchTSTConfig.num_input_channels (config (ns_scratch ns))
       = Py.len forecast_columns
    /\ Py.len forecast_columns = 7
    /\ ForecastDFDataset.len (test_dataset (ns_datasets ns))
       = (test_end_index - test_start_index)
         - (context_length + forecast_horizon) + 1
    /\ test_end_index - test_start_index = 3392
    /\ context_length + forecast_horizon = 608
    /\ 3392 - 608 + 1 = 2785
    /\ (forall i, 0 <= i < 2785 ->
          ForecastDFDataset.getitem (test_dataset (ns_datasets ns)) i
          = Some (Py.range (test_start_index + i) (Z.to_nat context_length),
                  Py.range (test_start_index + i + context_length)
                    (Z.to_nat forecast_horizon)))
    /\ ForecastDFDataset.getitem (test_dataset (ns_datasets ns)) 2785 = None.
Proof.
  intros [n [Hcsv Hn]] [c (Hhub & Hc1 & Hc2 & Hc3)].
  known_checkpoint c Hc1 Hc2 Hc3.
  do 2 eexists. split.
  { run_notebook Hcsv Hhub. }
  do 12 (split; [reflexivity|]).
  split.
  - intros i Hi. cbn [ns_datasets test_dataset].
    rewrite getitem_rows; [reflexivity | cbn; lia | cbn; lia | exact Hi].
  - apply getitem_none. cbv. discriminate.
Qed.

(** The shape of the predictions in the ETTh1 world. *)
Lemma C2_predictions_shape_witness :
  enough_rows etth1_world /\ checkpoint_fits etth1_world
  /\ exists ns k',
       run notebook etth1_world (fresh_kernel 0 0 0) = (Ok ns, k')
       /\ Out_25 (ns_scratch ns) = (2785, 96, 7).
Proof.
  assert (Hrows : enough_rows etth1_world).
  { exists 17420. split; [reflexivity | discriminate]. }
  assert (Hhub : checkpoint_fits etth1_world).
  { eexists. split; [reflexivity | repeat split]. }
  split; [exact Hrows|]. split; [exact Hhub|].
  destruct (C2_predictions_shape etth1_world 0 0 0 Hrows Hhub)
    as (ns & k' & Hrun & Hshape & _).
  exists ns, k'. split; assumption.
Defined.

(* ===================================================================== *)
(** * Fitting, preprocessing and windowing *)
(* ===================================================================== *)

(** C3.  The preprocessor is fitted once, on [train_data]; each of the
    three raw frames goes through [tsp.preprocess], on the fitted
    preprocessor, and what [tsp.preprocess] returns is what
    [ForecastDFDataset] windows; no [tsp.preprocess] comes before
    [tsp.train], and every frame a [ForecastDFDataset] is built from is
    scaled by the fitted scaler. *)
Theorem C3_fit_then_preprocess (w : world) (e1 e2 e3 : Z) :
  enough_rows w -> checkpoint_fits w ->
  exists ns k' s df1 df2 df3,
    run notebook w (fresh_kernel e1 e2 e3) = (Ok ns, k')
    /\ let f := ns_frames ns in
       let d := ns_datasets ns in
       let tsp0 := TimeSeriesPreprocessor.init timestamp_column id_columns
                     forecast_columns true in
       DataFrame.scaled_by (train_data f) = None
       /\ DataFrame.scaled_by (valid_data f) = None
       /\ DataFrame.scaled_by (test_data f) = None
       /\ TimeSeriesPreprocessor.scaler_dict tsp0 = None
       /\ tsp f = TimeSeriesPreprocessor.train tsp0 (train_data f)
       /\ TimeSeriesPreprocessor.scaler_dict (tsp f) = Some s
       /\ StandardScaler.fitted_rows s = DataFrame.index (train_data f)
       /\ train_frames (log k') = [train_data f]
       /\ TimeSeriesPreprocessor.preprocess (tsp f) (train_data f) = Ok df1
       /\ TimeSeriesPreprocessor.preprocess (tsp f) (valid_data f) = Ok df2
       /\ TimeSeriesPreprocessor.preprocess (tsp f) (test_data f) = Ok df3
       /\ pipeline_calls (log k')
          = [Call.TimeSeriesPreprocessor timestamp_column id_columns
               forecast_columns true;
             Call.tsp_train tsp0 (train_data f);
             Call.tsp_preprocess (tsp f) (train_data f);
             Call.ForecastDFDataset df1 id_columns forecast_columns
               context_length forecast_horizon;
             Call.tsp_preprocess (tsp f) (valid_data f);
             Call.ForecastDFDataset df2 id_columns forecast_columns
               context_length forecast_horizon;
             Call.tsp_preprocess (tsp f) (test_data f);
             Call.ForecastDFDataset df3 id_columns forecast_columns
               context_length forecast_horizon]
       /\ preprocess_after_train false (log k') = true
       /\ dataset_frames (log k') = [df1; df2; df3]
       /\ (forall df, In df (dataset_frames (log k')) ->
             DataFrame.scaled_by df = Some s)
       /\ ForecastDFDataset.data (train_dataset d) = df1
       /\ ForecastDFDataset.data (valid_dataset d) = df2
       /\ ForecastDFDataset.data (test_dataset d) = df3.
Proof.
  intros [n [Hcsv Hn]] [c (Hhub & Hc1 & Hc2 & Hc3)].
  known_checkpoint c Hc1 Hc2 Hc3.
  do 6 eexists. split.
  { run_notebook Hcsv Hhub. }
  cbv zeta.
  do 14 (split; [reflexivity|]).
  split.
  - intros df [<-|[<-|[<-|[]]]]; reflexivity.
  - repeat split.
Qed.

(** Fitting and preprocessing in the ETTh1 world. *)
Lemma C3_fit_then_preprocess_witness :
  enough_rows etth1_world /\ checkpoint_fits etth1_world
  /\ exists ns k',
       run notebook etth1_world (fresh_kernel 0 0 0) = (Ok ns, k')
       /\ train_frames (log k') = [train_data (ns_frames ns)]
       /\ preprocess_after_train false (log k') = true.
Proof.
  assert (Hrows : enough_rows etth1_world).
  { exists 17420. split; [reflexivity | discriminate]. }
  assert (Hhub : checkpoint_fits etth1_world).
  { eexists. split; [reflexivity | repeat split]. }
  split; [exact Hrows|]. split; [exact Hhub|].
  destruct (C3_fit_then_preprocess etth1_world 0 0 0 Hrows Hhub)
    as (ns & k' & s & df1 & df2 & df3 & Hrun & H).
  cbv zeta in H.
  destruct H as (_ & _ & _ & _ & _ & _ & _ & Htrain & _ & _ & _ & _ & Hafter & _).
  exists ns, k'. repeat split; assumption.
Defined.

(** Windowing before fitting does not go through: with cell 7 run on a
    preprocessor that has only been constructed, the first
    [tsp.preprocess] raises and no dataset is built. *)
Lemma preprocess_before_train_raises (w : world) (k : kernel)
    (df1 df2 df3 df : DataFrame.t) :
  exists e k',
    run (cell_7 {| data := df; train_data := df1; valid_data := df2;
                   test_data := df3;
                   tsp := TimeSeriesPreprocessor.init timestamp_column
                            id_columns forecast_columns true |}) w k
    = (Raised e, k')
    /\ dataset_frames (log k') = dataset_frames (log k).
Proof.
  do 2 eexists. split; [reflexivity|].
  cbn. unfold dataset_frames. rewrite flat_map_app. cbn.
  now rewrite app_nil_r.
Qed.

(* ===================================================================== *)
(** * Agreement of the windowing parameters *)
(* ===================================================================== *)

(** C6.  The three [ForecastDFDataset] constructions are made with the
    same id columns (none), the same 7 target columns, context length
    512 and prediction length 96 ([forecast_horizon]); the from-scratch
    [PatchTSTConfig] has the same context length and prediction length
    and as many input channels as there are target columns.  So the
    samples of the three datasets have the shapes the model takes and
    returns, and the model accepts each dataset. *)
Theorem C6_windowing_parameters_agree (w : world) (e1 e2 e3 : Z) :
  enough_rows w -> checkpoint_fits w ->
  exists ns k' cfg,
    run notebook w (fresh_kernel e1 e2 e3) = (Ok ns, k')
    /\ dataset_windowing (log k')
       = [(id_columns, forecast_columns, context_length, forecast_horizon);
          (id_columns, forecast_columns, context_length, forecast_horizon);
          (id_columns, forecast_columns, context_length, forecast_horizon)]
    /\ id_columns = []
    /\ Py.len forecast_columns = 7
    /\ context_length = 512
    /\ forecast_horizon = 96
    /\ configs (log k') = [cfg]
    /\ config (ns_scratch ns) = cfg
    /\ PatchTSTForPrediction.config (Trainer.model (trainer (ns_scratch ns))) = cfg
    /\ PatchTSTConfig.context_length cfg = context_length
    /\ PatchTSTConfig.prediction_length cfg = forecast_horizon
    /\ PatchTSTConfig.num_input_channels cfg = Py.len forecast_columns
    /\ forall ds,
         In ds [train_dataset (ns_datasets ns);
                valid_dataset (ns_datasets ns);
                test_dataset (ns_datasets ns)] ->
         ForecastDFDataset.context_length ds = context_length
         /\ ForecastDFDataset.prediction_length ds = forecast_horizon
         /\ ForecastDFDataset.target_columns ds = forecast_columns
         /\ ForecastDFDataset.id_columns ds = id_columns
         /\ ForecastDFDataset.past_shape ds = PatchTSTConfig.input_shape cfg
         /\ ForecastDFDataset.future_shape ds = PatchTSTConfig.output_shape cfg
         /\ PatchTSTForPrediction.accepts
              (Trainer.model (trainer (ns_scratch ns))) ds = true.
Proof.
  intros [n [Hcsv Hn]] [c (Hhub & Hc1 & Hc2 & Hc3)].
  known_checkpoint c Hc1 Hc2 Hc3.
  do 3 eexists. split.
  { run_notebook Hcsv Hhub. }
  do 11 (split; [reflexivity|]).
  intros ds [<-|[<-|[<-|[]]]]; repeat split.
Qed.

(** The windowing parameters in the ETTh1 world. *)
Lemma C6_windowing_parameters_agree_witness :
  enough_rows etth1_world /\ checkpoint_fits etth1_world
  /\ exists ns k',
       run notebook etth1_world (fresh_kernel 0 0 0) = (Ok ns, k')
       /\ dataset_windowing (log k')
          = [([], forecast_columns, 512, 96);
             ([], forecast_columns, 512, 96);
             ([], forecast_columns, 512, 96)].
Proof.
  assert (Hrows : enough_rows etth1_world).
  { exists 17420. split; [reflexivity | discriminate]. }
  assert (Hhub : checkpoint_fits etth1_world).
  { eexists. split; [reflexivity | repeat split]. }
  split; [exact Hrows|]. split; [exact Hhub|].
  destruct (C6_windowing_parameters_agree etth1_world 0 0 0 Hrows Hhub)
    as (ns & k' & cfg & Hrun & Hw & _).
  exists ns, k'. split; assumption.
Defined.

(* ===================================================================== *)
(** * The order of the steps *)
(* ===================================================================== *)

Section Order.

Lemma nondecreasing_head a l x :
  nondecreasing (a :: l) = true -> In x l -> (rank a <= rank x)%nat.
Proof.
  revert a. induction l as [|b l IH]; intros a H Hx; [destruct Hx|].
  cbn [nondecreasing] in H. apply andb_true_iff in H. destruct H as [Hab Hl].
  apply Nat.leb_le in Hab.
  destruct Hx as [<-|Hx]; [assumption|].
  specialize (IH b Hl Hx). lia.
Qed.

Lemma nondecreasing_tail a l :
  nondecreasing (a :: l) = true -> nondecreasing l = true.
Proof.
  destruct l as [|b l]; [reflexivity|].
  cbn [nondecreasing]. intros H. apply andb_true_iff in H. apply H.
Qed.

Lemma nondecreasing_in_order l : nondecreasing l = true -> in_order l.
Proof.
  induction l as [|a l IH]; intros H i j x y Hij Hi Hj.
  - destruct i; discriminate.
  - destruct j as [|j]; [lia|]. cbn in Hj.
    destruct i as [|i].
    + cbn in Hi. injection Hi as <-.
      apply nondecreasing_head with (l := l); [assumption|].
      eapply nth_error_In; eassumption.
    + cbn in Hi.
      apply (IH (nondecreasing_tail _ _ H) i j x y); [lia | assumption | assumption].
Qed.

End Order.

(** C4.  Along each way through the notebook the steps come in the listed
    order.  With the pretrained model: read the CSV, split by index
    (three calls), instantiate the preprocessor, build the three
    datasets, instantiate the model ([from_pretrained]), configure the
    training loop ([TrainingArguments], [Trainer]), evaluate.  From
    scratch: the same up to the datasets, then instantiate the model
    ([PatchTSTForPrediction]), configure the training loop, train,
    evaluate, inspect the shape of the predictions.  The notebook runs
    the cells of the first way and then those of the second that are not
    shared. *)
Theorem C4_steps_in_order (w : world) (e1 e2 e3 : Z) :
  enough_rows w -> checkpoint_fits w ->
  exists r1 k1, run pretrained_path w (fresh_kernel e1 e2 e3) = (Ok r1, k1) /\
  exists r2 k2, run scratch_path w (fresh_kernel e1 e2 e3) = (Ok r2, k2) /\
  exists ns k, run notebook w (fresh_kernel e1 e2 e3) = (Ok ns, k) /\
  exists shared own1 own2,
    log k1 = shared ++ own1
    /\ log k2 = shared ++ own2
    /\ log k = shared ++ own1 ++ own2
    /\ steps shared
       = [ReadCSV; SplitIndices; SplitIndices; SplitIndices;
          InstantiatePreprocessor; BuildDataset; BuildDataset; BuildDataset]
    /\ steps own1
       = [InstantiateModel; ConfigureTraining; ConfigureTraining; Evaluate]
    /\ steps own2
       = [InstantiateModel; ConfigureTraining; ConfigureTraining; Train;
          Evaluate; InspectShapes]
    /\ in_order (steps (log k1))
    /\ in_order (steps (log k2)).
Proof.
  intros [n [Hcsv Hn]] [c (Hhub & Hc1 & Hc2 & Hc3)].
  known_checkpoint c Hc1 Hc2 Hc3.
  do 2 eexists. split. { run_notebook Hcsv Hhub. }
  do 2 eexists. split. { run_prepare Hcsv. cbv. reflexivity. }
  do 2 eexists. split. { run_notebook Hcsv Hhub. }
  match goal with
  | |- exists s o1 o2, ?L1 = _ /\ ?L2 = _ /\ _ =>
      exists (firstn 16 L1), (skipn 16 L1), (skipn 16 L2)
  end.
  do 6 (split; [reflexivity|]).
  split; apply nondecreasing_in_order; reflexivity.
Qed.

(** The order of the steps in the ETTh1 world. *)
Lemma C4_steps_in_order_witness :
  enough_rows etth1_world /\ checkpoint_fits etth1_world
  /\ exists r1 k1 r2 k2,
       run pretrained_path etth1_world (fresh_kernel 0 0 0) = (Ok r1, k1)
       /\ run scratch_path etth1_world (fresh_kernel 0 0 0) = (Ok r2, k2)
       /\ in_order (steps (log k1))
       /\ in_order (steps (log k2)).
Proof.
  assert (Hrows : enough_rows etth1_world).
  { exists 17420. split; [reflexivity | discriminate]. }
  assert (Hhub : checkpoint_fits etth1_world).
  { eexists. split; [reflexivity | repeat split]. }
  split; [exact Hrows|]. split; [exact Hhub|].
  destruct (C4_steps_in_order etth1_world 0 0 0 Hrows Hhub)
    as (r1 & k1 & Hrun1 & r2 & k2 & Hrun2 & ns & k & _ & shared & own1 & own2
        & _ & _ & _ & _ & _ & _ & Ho1 & Ho2).
  exists r1, k1, r2, k2. repeat split; assumption.
Defined.

(** Over the whole notebook the steps are not in the listed order: the
    evaluation of the pretrained model comes before the model from
    scratch is instantiated.  The order holds along each way, not across
    them. *)
Lemma whole_notebook_not_in_order :
  exists ns k,
    run notebook etth1_world (fresh_kernel 0 0 0) = (Ok ns, k)
    /\ ~ in_order (steps (log k)).
Proof.
  do 2 eexists. split; [cbv; reflexivity|].
  intros H.
  specialize (H 11%nat 12%nat Evaluate InstantiateModel).
  cbv in H.
  specialize (H (le_n 12) eq_refl eq_refl).
  lia.
Qed.

(* ===================================================================== *)
(** * Seeding *)
(* ===================================================================== *)

Section Steady.

Lemma steady_ret {A : Type} (a : A) : steady (ret a).
Proof.
  intros w k. split; [exists []; cbn; now rewrite app_nil_r | reflexivity].
Qed.

Lemma steady_bind {A B : Type} (c : nb A) (f : A -> nb B) :
  steady c -> (forall a, steady (f a)) -> steady (bind c f).
Proof.
  intros Hc Hf w k. unfold bind.
  destruct (Hc w k) as [[l1 Hl1] Hs1].
  destruct (c w k) as [[a|e] k1]; cbn [snd] in *.
  - destruct (Hf a w k1) as [[l2 Hl2] Hs2].
    split.
    + exists (l1 ++ l2). now rewrite Hl2, Hl1, app_assoc.
    + now rewrite Hs2.
  - split; [exists l1; assumption | assumption].
Qed.

Lemma steady_called c : steady (called c).
Proof. intros w k. split; [exists [c]; reflexivity | reflexivity]. Qed.

Lemma steady_lift {A : Type} (r : outcome A) : steady (lift r).
Proof.
  intros w k. split; [exists []; cbn; now rewrite app_nil_r | reflexivity].
Qed.

Lemma steady_ask : steady ask.
Proof.
  intros w k. split; [exists []; cbn; now rewrite app_nil_r | reflexivity].
Qed.

Lemma steady_with_torch {A : Type} (f : Rng.t -> outcome (A * Rng.t)) :
  (forall g a g', f g = Ok (a, g') -> Rng.source g' = Rng.source g) ->
  steady (with_torch f).
Proof.
  intros Hf w k. unfold with_torch.
  destruct (f (torch_rng k)) as [[a g]|e] eqn:E; cbn [snd].
  - split; [exists []; cbn; now rewrite app_nil_r|].
    unfold sources. cbn. now rewrite (Hf _ _ _ E).
  - split; [exists []; now rewrite app_nil_r | reflexivity].
Qed.

End Steady.

Create HintDb steady.
#[local] Hint Resolve steady_ret steady_called steady_lift steady_ask : steady.

Ltac steady_step :=
  match goal with
  | |- steady (bind _ _) => apply steady_bind; [|intros ?]
  | |- steady (match ?x with (_, _) => _ end) => destruct x
  | |- steady (match ?x with Some _ => _ | None => _ end) => destruct x
  | |- steady (with_torch _) => apply steady_with_torch
  | |- steady _ => solve [auto with steady]
  end.

Ltac steady_auto := repeat steady_step.

Section SteadyCells.

Lemma steady_print s : steady (Act.print s).
Proof. unfold Act.print. steady_auto. Qed.

Lemma steady_cell_5 : steady cell_5.
Proof. apply steady_print. Qed.

Lemma steady_cell_6 : steady cell_6.
Proof.
  unfold cell_6, Act.read_csv, Act.select_by_index,
    Act.TimeSeriesPreprocessor, Act.tsp_train.
  steady_auto.
Qed.

Lemma steady_cell_7 f : steady (cell_7 f).
Proof.
  unfold cell_7, Act.tsp_preprocess, Act.ForecastDFDataset.
  steady_auto.
Qed.

Lemma steady_testing_pretrained d : steady (testing_pretrained d).
Proof.
  unfold testing_pretrained, cell_9, cell_10, Act.print, Act.from_pretrained,
    Act.TrainingArguments, Act.Trainer, Act.evaluate, Act.print_result.
  steady_auto.
Qed.

Lemma init_keeps_source cfg g m g' :
  Ok (PatchTSTForPrediction.init cfg g) = Ok (m, g') ->
  Rng.source g' = Rng.source g.
Proof. intros [= _ <-]. reflexivity. Qed.

Lemma train_keeps_source t g t' g' :
  Trainer.train t g = Ok (t', g') -> Rng.source g' = Rng.source g.
Proof.
  unfold Trainer.train.
  destruct (Trainer.train_dataset t); [|discriminate].
  destruct (Trainer.eval_dataset t); [|discriminate].
  destruct (_ && _); [|discriminate].
  intros [= _ <-]. reflexivity.
Qed.

Lemma steady_train_from_scratch d : steady (train_from_scratch d).
Proof.
  unfold train_from_scratch, cell_12, cell_13, cell_14, cell_16, cell_17,
    Act.PatchTSTConfig, Act.PatchTSTForPrediction, Act.TrainingArguments,
    Act.EarlyStoppingCallback, Act.Trainer, Act.print, Act.train,
    Act.evaluate, Act.predict, Act.shape.
  steady_auto.
  - intros g m g'. apply init_keeps_source.
  - apply train_keeps_source.
Qed.

Lemma steady_after_seeding : steady after_seeding.
Proof.
  unfold after_seeding.
  apply steady_bind; [apply steady_cell_5 | intros _].
  apply steady_bind; [apply steady_cell_6 | intros f].
  apply steady_bind; [apply steady_cell_7 | intros d].
  apply steady_bind; [apply steady_testing_pretrained | intros [t r]].
  apply steady_bind; [apply steady_train_from_scratch | intros s].
  apply steady_ret.
Qed.

End SteadyCells.

Section Seeding.

Variable w : world.

Lemma cell_2_seeds (a b c : Z) :
  run cell_2 w (fresh_kernel a b c) = (Ok tt, seeded_kernel).
Proof. reflexivity. Qed.

(** The notebook is cell 2 followed by the other cells. *)
Lemma notebook_after_seeding (k : kernel) :
  run notebook w k
  = match run cell_2 w k with
    | (Ok _, k') => run after_seeding w k'
    | (Raised e, k') => (Raised e, k')
    end.
Proof.
  unfold run, notebook, after_seeding, load_and_prepare, bind.
  destruct (cell_2 w k) as [[[]|e] k1]; [|reflexivity].
  destruct (cell_5 w k1) as [[[]|e] k2]; [|reflexivity].
  destruct (cell_6 w k2) as [[f|e] k3]; [|reflexivity].
  destruct (cell_7 f w k3) as [[d|e] k4]; [|reflexivity].
  cbn [ret].
  destruct (testing_pretrained d w k4) as [[[t r]|e] k5]; [|reflexivity].
  reflexivity.
Qed.

End Seeding.

(** C8.  Cell 2 seeds torch, [random] and numpy with the same constant
    [SEED = 42], and these three calls are the first the notebook makes,
    before any data is loaded and before any dataset or model is built.
    Whatever state the three generators start in, after cell 2 they are
    in the state the seed gives them, the remaining cells run from that
    state, and nothing afterwards re-seeds a generator: two runs of the
    notebook in the same world give the same outcome, the same log and
    the same final generator states. *)
Theorem C8_seeded_runs_agree (w : world) (a b c a' b' c' : Z) :
  SEED = 42
  /\ run cell_2 w (fresh_kernel a b c)
     = (Ok tt,
        {| torch_rng := Rng.seed SEED;
           random_rng := Rng.seed SEED;
           np_rng := Rng.seed SEED;
           log := [Call.torch_manual_seed SEED; Call.random_seed SEED;
                   Call.np_random_seed SEED] |})
  /\ run cell_2 w (fresh_kernel a b c) = run cell_2 w (fresh_kernel a' b' c')
  /\ run notebook w (fresh_kernel a b c) = run after_seeding w seeded_kernel
  /\ run notebook w (fresh_kernel a b c) = run notebook w (fresh_kernel a' b' c')
  /\ (exists rest,
        log (snd (run notebook w (fresh_kernel a b c)))
        = [Call.torch_manual_seed SEED; Call.random_seed SEED;
           Call.np_random_seed SEED] ++ rest)
  /\ sources (snd (run notebook w (fresh_kernel a b c)))
     = (Rng.Seed SEED, Rng.Seed SEED, Rng.Seed SEED).
Proof.
  assert (E : forall x y z,
             run notebook w (fresh_kernel x y z) = run after_seeding w seeded_kernel).
  { intros x y z. rewrite notebook_after_seeding, cell_2_seeds. reflexivity. }
  split; [reflexivity|].
  split; [reflexivity|].
  split; [reflexivity|].
  split; [apply E|].
  split; [now rewrite !E|].
  rewrite E.
  destruct (steady_after_seeding w seeded_kernel) as [[rest Hlog] Hsrc].
  split; [exists rest; exact Hlog | exact Hsrc].
Qed.

(** With the rows and the checkpoint in place, the weights of the model
    built from scratch are the first draw of torch's generator as seeded
    with [SEED], and the training batches are shuffled with the second. *)
Lemma scratch_weights_from_seed (w : world) (e1 e2 e3 : Z) :
  enough_rows w -> checkpoint_fits w ->
  exists ns k' tr ev,
    run notebook w (fresh_kernel e1 e2 e3) = (Ok ns, k')
    /\ PatchTSTForPrediction.params (Trainer.model (trainer (ns_scratch ns)))
       = PatchTSTForPrediction.Trained
           (PatchTSTForPrediction.Initialised
              {| Rng.source := Rng.Seed SEED; Rng.draws := 0 |})
           {| Rng.source := Rng.Seed SEED; Rng.draws := 1 |}
           tr ev.
Proof.
  intros [n [Hcsv Hn]] [c (Hhub & Hc1 & Hc2 & Hc3)].
  known_checkpoint c Hc1 Hc2 Hc3.
  do 4 eexists. split.
  { run_notebook Hcsv Hhub. }
  reflexivity.
Qed.

(** Without cell 2 the initial weights depend on the entropy torch's
    generator happened to start from: two runs differ. *)
Lemma unseeded_runs_differ :
  run scratch_without_seeding etth1_world (fresh_kernel 0 0 0)
  <> run scratch_without_seeding etth1_world (fresh_kernel 1 0 0).
Proof. cbv. discriminate. Qed.

(* ===================================================================== *)
(** * The text and the model agree *)
(* ===================================================================== *)

(** The integer assignments of cells 4 and 5 evaluate to the constants
    the model uses. *)
Lemma source_indices_agree :
  let env := Src.assign_ints [] (Source.cell_4 ++ Source.cell_5) in
  Src.lookup env "context_length" = Some context_length
  /\ Src.lookup env "forecast_horizon" = Some forecast_horizon
  /\ Src.lookup env "patch_length" = Some patch_length
  /\ Src.lookup env "batch_size" = Some batch_size
  /\ Src.lookup env "num_workers" = Some num_workers
  /\ Src.lookup env "train_end_index" = Some train_end_index
  /\ Src.lookup env "valid_start_index" = Some valid_start_index
  /\ Src.lookup env "valid_end_index" = Some valid_end_index
  /\ Src.lookup env "test_start_index" = Some test_start_index
  /\ Src.lookup env "test_end_index" = Some test_end_index.
Proof. cbv. repeat split. Qed.

(** The import cell groups its imports under comments: transformers is
    marked third party, the modules of tsfm_public first party. *)
Lemma import_groups_of_cell_1 :
  Src.import_groups "" Source.cell_1
  = [("random", "Standard"); ("numpy", "Standard"); ("pandas", "Standard");
     ("torch", "Standard");
     ("transformers", "Third Party");
     ("tsfm_public.toolkit.dataset", "First Party");
     ("tsfm_public.toolkit.time_series_preprocessor", "First Party");
     ("tsfm_public.toolkit.util", "First Party")].
Proof. reflexivity. Qed.

(** The log of a run names the calls of the text, in the order of the
    text.  The built-in [len] is computed, not logged, and the last log
    entry is the attribute [shape] that cell 17 displays. *)
Lemma log_follows_source :
  exists ns k,
    run notebook etth1_world (fresh_kernel 0 0 0) = (Ok ns, k)
    /\ map call_name (log k)
       = filter (fun s => negb (String.eqb s "len"))
           (flat_map Src.stmt_calls Source.program)
         ++ ["shape"].
Proof. do 2 eexists. split; cbv; reflexivity. Qed.

(* ===================================================================== *)
(** * What the notebook defines *)
(* ===================================================================== *)

(** C7.  The notebook defines no function and no class.  Each of
    [TimeSeriesPreprocessor], [ForecastDFDataset],
    [PatchTSTForPrediction] and [Trainer] is bound exactly once, by an
    import from [transformers] or from a module of [tsfm_public], is
    never assigned or defined, and is used only at call sites that pass
    it arguments. *)
Theorem C7_framework_classes_not_defined :
  Source.definitions = []
  /\ Source.binders_of "TimeSeriesPreprocessor"
     = [Src.Imported "tsfm_public.toolkit.time_series_preprocessor"]
  /\ Source.binders_of "ForecastDFDataset"
     = [Src.Imported "tsfm_public.toolkit.dataset"]
  /\ Source.binders_of "PatchTSTForPrediction" = [Src.Imported "transformers"]
  /\ Source.binders_of "Trainer" = [Src.Imported "transformers"]
  /\ Forall (fun m => Source.from_framework m = true)
       ["tsfm_public.toolkit.time_series_preprocessor";
        "tsfm_public.toolkit.dataset"; "transformers"]
  /\ Source.uses_of "TimeSeriesPreprocessor" = [Src.Callee 4]
  /\ Source.uses_of "ForecastDFDataset"
     = [Src.Callee 5; Src.Callee 5; Src.Callee 5]
  /\ Source.uses_of "PatchTSTForPrediction"
     = [Src.Receiver "from_pretrained" 1; Src.Callee 1]
  /\ Source.uses_of "Trainer" = [Src.Callee 2; Src.Callee 5]
  /\ Forall (fun x => forallb is_call_site (Source.uses_of x) = true)
       ["TimeSeriesPreprocessor"; "ForecastDFDataset";
        "PatchTSTForPrediction"; "Trainer"].
Proof.
  do 5 (split; [reflexivity|]).
  split; [repeat constructor|].
  do 4 (split; [reflexivity|]).
  repeat constructor.
Qed.

(* ===================================================================== *)
(** * Patches *)
(* ===================================================================== *)

Section Patches.

Variable sequence_start : Z.

Lemma patch_arithmetic :
  (context_length - patch_length) / patch_stride + 1 = 42
  /\ 42 * patch_length = 504
  /\ context_length mod patch_length = 8
  /\ context_length - 42 * patch_length = 8.
Proof. repeat split. Qed.

Lemma patch_is_contiguous j :
  RangeIndex.labels (patch sequence_start j)
  = Py.range (sequence_start + j * patch_stride) (Z.to_nat patch_length).
Proof.
  unfold RangeIndex.labels, patch. cbn [RangeIndex.start RangeIndex.stop].
  f_equal. f_equal. lia.
Qed.

Lemma patches_disjoint j j' t :
  j <> j' ->
  RangeIndex.mem t (patch sequence_start j) = true -> RangeIndex.mem t (patch sequence_start j') = false.
Proof.
  intros Hj H. apply not_true_is_false. intros H'.
  unfold RangeIndex.mem, patch, patch_stride, patch_length in *.
  cbn [RangeIndex.start RangeIndex.stop] in *.
  apply andb_true_iff in H, H'.
  rewrite Z.leb_le, Z.ltb_lt in H, H'. lia.
Qed.

(** The 42 patches cover the 504 steps from the start of the first. *)
Lemma patches_cover t :
  in_some_patch sequence_start 42 t <-> sequence_start <= t < sequence_start + 504.
Proof.
  unfold in_some_patch, RangeIndex.mem, patch, patch_stride, patch_length.
  cbn [RangeIndex.start RangeIndex.stop]. split.
  - intros (j & Hj & H). apply andb_true_iff in H.
    rewrite Z.leb_le, Z.ltb_lt in H. lia.
  - intros Ht. exists ((t - sequence_start) / 12).
    rewrite andb_true_iff, Z.leb_le, Z.ltb_lt.
    pose proof (Z.div_mod (t - sequence_start) 12 ltac:(lia)).
    pose proof (Z.mod_pos_bound (t - sequence_start) 12 ltac:(lia)).
    lia.
Qed.

(** They lie inside the window exactly when the first one starts within
    its first 8 steps. *)
Lemma patches_inside_window :
  (forall j, 0 <= j < 42 ->
     0 <= RangeIndex.start (patch sequence_start j)
     /\ RangeIndex.stop (patch sequence_start j) <= context_length)
  <-> 0 <= sequence_start <= 8.
Proof.
  unfold patch, patch_stride, patch_length, context_length.
  cbn [RangeIndex.start RangeIndex.stop]. split.
  - intros H. pose proof (H 0 ltac:(lia)). pose proof (H 41 ltac:(lia)). lia.
  - intros Hs j Hj. lia.
Qed.

(** A 43rd patch would end past the window. *)
Lemma no_43rd_patch :
  0 <= sequence_start ->
  context_length < RangeIndex.stop (patch sequence_start 42).
Proof.
  unfold patch, patch_stride, patch_length, context_length.
  cbn [RangeIndex.stop]. lia.
Qed.

(** Which 8 steps of the window are in no patch depends on where the
    first patch starts: the last 8 when it starts with the window, the
    first 8 when the patches end with the window. *)
Lemma steps_outside_patches t :
  0 <= sequence_start <= 8 -> 0 <= t < context_length ->
  (~ in_some_patch sequence_start 42 t
   <-> t < sequence_start \/ sequence_start + 504 <= t).
Proof.
  intros Hs Ht. rewrite patches_cover. lia.
Qed.

End Patches.

(* ===================================================================== *)
(** * Other settings *)
(* ===================================================================== *)

(** With the settings the notebook comes with, the cells with arguments
    are the cells of the notebook. *)
Lemma adjusted_cells_at_notebook_settings :
  Adjusted.cell_2 notebook_settings = cell_2
  /\ Adjusted.cell_5 notebook_settings = cell_5
  /\ Adjusted.cell_6 notebook_settings = cell_6
  /\ Adjusted.cell_7 notebook_settings = cell_7
  /\ Adjusted.cell_12 notebook_settings = cell_12
  /\ Adjusted.cell_13 notebook_settings = cell_13.
Proof. repeat split. Qed.

Lemma adjusted_at_notebook_settings :
  Adjusted.load_and_prepare notebook_settings = load_and_prepare
  /\ Adjusted.scratch_path notebook_settings = scratch_path
  /\ Adjusted.notebook notebook_settings = notebook.
Proof.
  destruct adjusted_cells_at_notebook_settings
    as (E2 & E5 & E6 & E7 & E12 & E13).
  assert (P : Adjusted.load_and_prepare notebook_settings = load_and_prepare).
  { unfold Adjusted.load_and_prepare, load_and_prepare.
    now rewrite E2, E5, E6, E7. }
  assert (S : Adjusted.train_from_scratch notebook_settings = train_from_scratch).
  { unfold Adjusted.train_from_scratch, train_from_scratch.
    now rewrite E12, E13. }
  split; [exact P|].
  unfold Adjusted.scratch_path, scratch_path, Adjusted.notebook, notebook.
  rewrite P, S. split; reflexivity.
Qed.

Ltac unfold_adjusted :=
  cbv beta iota zeta delta
    [run Adjusted.notebook Adjusted.scratch_path Adjusted.load_and_prepare
     testing_pretrained Adjusted.train_from_scratch
     Adjusted.cell_2 Adjusted.cell_5 Adjusted.cell_6 Adjusted.cell_7
     cell_9 cell_10 Adjusted.cell_12 Adjusted.cell_13 cell_14 cell_16 cell_17
     bind ret called lift ask with_torch set_rngs fresh_kernel
     Act.torch_manual_seed Act.random_seed Act.np_random_seed Act.print
     Act.print_result Act.read_csv Act.select_by_index
     Act.TimeSeriesPreprocessor Act.tsp_train Act.tsp_preprocess
     Act.ForecastDFDataset Act.from_pretrained Act.TrainingArguments
     Act.EarlyStoppingCallback Act.Trainer Act.evaluate Act.PatchTSTConfig
     Act.PatchTSTForPrediction Act.train Act.predict Act.shape
     Util.select_by_index DataFrame.iloc
     torch_rng random_rng np_rng log DataFrame.index DataFrame.scaled_by
     train_start_index
     TimeSeriesPreprocessor.init TimeSeriesPreprocessor.train
     TimeSeriesPreprocessor.preprocess TimeSeriesPreprocessor.scaling
     TimeSeriesPreprocessor.scaler_dict TimeSeriesPreprocessor.target_columns
     TimeSeriesPreprocessor.timestamp_column TimeSeriesPreprocessor.id_columns
     ForecastDFDataset.init
     tsp train_data valid_data test_data data
     train_dataset valid_dataset test_dataset
     PatchTSTForPrediction.init PatchTSTForPrediction.accepts
     PatchTSTForPrediction.config PatchTSTForPrediction.params
     PatchTSTConfig.context_length PatchTSTConfig.prediction_length
     PatchTSTConfig.num_input_channels
     ForecastDFDataset.context_length ForecastDFDataset.prediction_length
     ForecastDFDataset.target_columns
     Trainer.evaluate Trainer.predict Trainer.train Trainer.model
     Trainer.train_dataset Trainer.eval_dataset Trainer.args Trainer.callbacks
     Trainer.predictions_0_shape
     Rng.draw Rng.seed Rng.source Rng.draws andb].

Ltac adjusted_bounds :=
  cbv [train_end_index valid_end_index test_end_index
       Adjusted.valid_start_index Adjusted.test_start_index] in *; lia.

(** Cells 2 to 7 with settings [s], in a world whose CSV has the rows. *)
Ltac run_adjusted_prepare Hcsv :=
  unfold_adjusted; rewrite Hcsv;
  rewrite Z.max_r by adjusted_bounds;
  unfold_adjusted;
  rewrite slice_first_rows, !slice_rows by adjusted_bounds;
  unfold_adjusted.


Ltac frame_arith :=
  cbv [ForecastDFDataset.len DataFrame.len RangeIndex.len overlap
       ForecastDFDataset.data ForecastDFDataset.context_length
       ForecastDFDataset.prediction_length
       DataFrame.index RangeIndex.start RangeIndex.stop
       train_dataset valid_dataset test_dataset
       train_data valid_data test_data
       ns_frames ns_datasets ns_scratch fst snd
       train_end_index valid_end_index test_end_index
       Adjusted.valid_start_index Adjusted.test_start_index] in *;
  try lia.

Section Targets.

Variable ds : ForecastDFDataset.t.
Hypothesis context_nonneg : 0 <= ForecastDFDataset.context_length ds.
Hypothesis horizon_positive : 0 < ForecastDFDataset.prediction_length ds.



End Targets.

(** X1.  With any context length from 0 to [train_end_index], the
    training frame is rows 0 to [train_end_index], the validation frame
    starts [context_length] rows before the end of the training frame
    and the test frame [context_length] rows before the end of the
    validation frame, so each later frame shares exactly
    [context_length] rows with the one before it.  The test frame reaches
    back into the training frame exactly when the context length exceeds
    the [4 * 30 * 24] rows of the validation period. *)
Theorem X1_splits_for_any_context_length (s : Adjusted.settings) (w : world)
    (e1 e2 e3 : Z) :
  0 <= Adjusted.context_length s <= train_end_index ->
  Adjusted.enough_rows s w ->
  exists f d k',
    run (Adjusted.load_and_prepare s) w (fresh_kernel e1 e2 e3) = (Ok (f, d), k')
    /\ DataFrame.index (train_data f)
       = {| RangeIndex.start := 0; RangeIndex.stop := train_end_index |}
    /\ DataFrame.index (valid_data f)
       = {| RangeIndex.start := train_end_index - Adjusted.context_length s;
            RangeIndex.stop := valid_end_index |}
    /\ DataFrame.index (test_data f)
       = {| RangeIndex.start := valid_end_index - Adjusted.context_length s;
            RangeIndex.stop := test_end_index |}
    /\ RangeIndex.len (overlap (DataFrame.index (train_data f))
                               (DataFrame.index (valid_data f)))
       = Adjusted.context_length s
    /\ RangeIndex.len (overlap (DataFrame.index (valid_data f))
                               (DataFrame.index (test_data f)))
       = Adjusted.context_length s
    /\ RangeIndex.len (overlap (DataFrame.index (train_data f))
                               (DataFrame.index (test_data f)))
       = Z.max 0 (Adjusted.context_length s - 4 * 30 * 24).
Proof.
  intros Hc [n [Hcsv Hn]].
  do 3 eexists. split.
  { run_adjusted_prepare Hcsv. reflexivity. }
  do 3 (split; [reflexivity|]).
  repeat split; frame_arith.
Qed.

(** The splits with a context of 3000 rows, longer than the validation
    period. *)
Lemma X1_splits_for_any_context_length_witness :
  0 <= Adjusted.context_length long_context_settings <= train_end_index
  /\ Adjusted.enough_rows long_context_settings etth1_world
  /\ exists f d k',
       run (Adjusted.load_and_prepare long_context_settings) etth1_world
         (fresh_kernel 0 0 0)
       = (Ok (f, d), k')
       /\ RangeIndex.len (overlap (DataFrame.index (train_data f))
                                  (DataFrame.index (test_data f)))
          = 120.
Proof.
  set (s := long_context_settings).
  assert (Hc : 0 <= Adjusted.context_length s <= train_end_index).
  { cbv. split; discriminate. }
  assert (Hrows : Adjusted.enough_rows s etth1_world).
  { exists 17420. split; [reflexivity | discriminate]. }
  split; [exact Hc|]. split; [exact Hrows|].
  destruct (X1_splits_for_any_context_length s etth1_world 0 0 0 Hc Hrows)
    as (f & d & k' & Hrun & _ & _ & _ & _ & _ & Hlen).
  exists f, d, k'. split; [exact Hrun | exact Hlen].
Defined.









(* ===================================================================== *)
(** * Names in the text *)
(* ===================================================================== *)

Section Scoping.

Lemma existsb_eqb_In x l : existsb (String.eqb x) l = true <-> In x l.
Proof.
  rewrite existsb_exists. split.
  - intros (y & Hy & E). apply String.eqb_eq in E. now subst.
  - intros H. exists x. split; [assumption | apply String.eqb_refl].
Qed.

(** When the check passes, a name read by a statement is bound at the
    start or by a statement before it. *)
Lemma scoped_sound l :
  forall bound, scoped bound l = true ->
  forall pre st post, l = pre ++ st :: post ->
  forall x u, In (x, u) (Src.stmt_uses st) ->
  In x bound \/ In x (flat_map (fun s => map fst (Src.binds s)) pre).
Proof.
  induction l as [|a l IH]; intros bound H pre st post E x u Hx.
  - destruct pre; discriminate.
  - cbn [scoped] in H. apply andb_true_iff in H. destruct H as [Ha Hl].
    destruct pre as [|b pre]; cbn [app] in E; injection E as -> ->.
    + left. rewrite forallb_forall in Ha. specialize (Ha _ Hx).
      now apply existsb_eqb_In in Ha.
    + destruct (IH _ Hl pre st post eq_refl x u Hx) as [Hb|Hp].
      * apply in_app_or in Hb. destruct Hb as [Hb|Hb].
        -- right. cbn [flat_map]. apply in_or_app. now left.
        -- now left.
      * right. cbn [flat_map]. apply in_or_app. now right.
Qed.

End Scoping.

(** X6.  Run from top to bottom, the notebook never reads a name that is
    not yet bound: every name a statement reads is a built-in ([print],
    [len]) or is bound, by an import or an assignment, by a statement
    that comes before it. *)
Theorem X6_names_bound_before_use (pre post : list Src.stmt) (st : Src.stmt)
    (x : string) (u : Src.usage) :
  Source.program = pre ++ st :: post ->
  In (x, u) (Src.stmt_uses st) ->
  In x builtins \/ In x (flat_map (fun s => map fst (Src.binds s)) pre).
Proof.
  intros E Hx.
  assert (Hs : scoped builtins Source.program = true)
    by (vm_compute; reflexivity).
  exact (scoped_sound Source.program builtins Hs pre st post E x u Hx).
Qed.

(** The statement of cell 16 reads [trainer], which cell 13 binds. *)
Lemma X6_names_bound_before_use_witness :
  Source.program
  = firstn 61 Source.program ++ predict_statement :: skipn 62 Source.program
  /\ In ("trainer", Src.Receiver "predict" 1) (Src.stmt_uses predict_statement)
  /\ (In "trainer" builtins
      \/ In "trainer"
           (flat_map (fun s => map fst (Src.binds s))
              (firstn 61 Source.program))).
Proof.
  assert (H1 : Source.program
               = firstn 61 Source.program
                 ++ predict_statement :: skipn 62 Source.program)
    by reflexivity.
  assert (H2 : In ("trainer", Src.Receiver "predict" 1)
                 (Src.stmt_uses predict_statement))
    by (left; reflexivity).
  split; [exact H1|]. split; [exact H2|].
  exact (X6_names_bound_before_use _ _ _ _ _ H1 H2).
Defined.

(** X7.  [num_workers] is the one name the notebook assigns and never
    reads: the training arguments set [dataloader_num_workers] to the
    number 1, not to the variable, so the outcome of the notebook is the
    same for every value of [num_workers]. *)
Theorem X7_num_workers_is_not_read (seed : Z) (name : string)
    (workers workers' batch context horizon patch : Z) (columns : list string) :
  never_read Source.program = ["num_workers"]
  /\ keywords_of "TrainingArguments" "dataloader_num_workers" Source.program
     = [Src.ENum 1]
  /\ Source.uses_of "num_workers" = []
  /\ Adjusted.notebook
       {| Adjusted.SEED := seed; Adjusted.dataset := name;
          Adjusted.num_workers := workers; Adjusted.batch_size := batch;
          Adjusted.context_length := context;
          Adjusted.forecast_horizon := horizon;
          Adjusted.patch_length := patch;
          Adjusted.forecast_columns := columns |}
     = Adjusted.notebook
         {| Adjusted.SEED := seed; Adjusted.dataset := name;
            Adjusted.num_workers := workers'; Adjusted.batch_size := batch;
            Adjusted.context_length := context;
            Adjusted.forecast_horizon := horizon;
            Adjusted.patch_length := patch;
            Adjusted.forecast_columns := columns |}.
Proof.
  split; [vm_compute; reflexivity|].
  split; [vm_compute; reflexivity|].
  split; [vm_compute; reflexivity|].
  cbv [Adjusted.notebook Adjusted.load_and_prepare Adjusted.train_from_scratch
       Adjusted.cell_2 Adjusted.cell_5 Adjusted.cell_6 Adjusted.cell_7
       Adjusted.cell_12 Adjusted.cell_13 Adjusted.dataset_path
       Adjusted.valid_start_index Adjusted.test_start_index
       Adjusted.SEED Adjusted.dataset Adjusted.batch_size
       Adjusted.context_length Adjusted.forecast_horizon
       Adjusted.patch_length Adjusted.forecast_columns].
  reflexivity.
Qed.

(** X8.  The windowing settings have one place of definition and are
    passed by name: [context_length], [forecast_horizon],
    [forecast_columns] and [patch_length] are each assigned once, the
    three [ForecastDFDataset] calls and the [PatchTSTConfig] call pass
    the variables [context_length] and [forecast_horizon] and not
    numbers, the number of input channels is [len(forecast_columns)] and
    the patch stride is the variable [patch_length].  The preprocessor is
    given the forecast columns but no context or prediction length. *)
Theorem X8_settings_passed_by_name :
  Forall (fun x => Source.binders_of x = [Src.Assigned])
    ["context_length"; "forecast_horizon"; "forecast_columns";
     "patch_length"; "batch_size"]
  /\ keywords_of "ForecastDFDataset" "context_length" Source.program
     = [Src.EName "context_length"; Src.EName "context_length";
        Src.EName "context_length"]
  /\ keywords_of "ForecastDFDataset" "prediction_length" Source.program
     = [Src.EName "forecast_horizon"; Src.EName "forecast_horizon";
        Src.EName "forecast_horizon"]
  /\ keywords_of "ForecastDFDataset" "target_columns" Source.program
     = [Src.EName "forecast_columns"; Src.EName "forecast_columns";
        Src.EName "forecast_columns"]
  /\ keywords_of "TimeSeriesPreprocessor" "target_columns" Source.program
     = [Src.EName "forecast_columns"]
  /\ keywords_of "TimeSeriesPreprocessor" "context_length" Source.program = []
  /\ keywords_of "TimeSeriesPreprocessor" "prediction_length" Source.program = []
  /\ keywords_of "PatchTSTConfig" "context_length" Source.program
     = [Src.EName "context_length"]
  /\ keywords_of "PatchTSTConfig" "prediction_length" Source.program
     = [Src.EName "forecast_horizon"]
  /\ keywords_of "PatchTSTConfig" "num_input_channels" Source.program
     = [Src.ECall (Src.EName "len") [Src.EName "forecast_columns"] []]
  /\ keywords_of "PatchTSTConfig" "patch_length" Source.program
     = [Src.EName "patch_length"]
  /\ keywords_of "PatchTSTConfig" "patch_stride" Source.program
     = [Src.EName "patch_length"]
  /\ keywords_of "TrainingArguments" "per_device_train_batch_size" Source.program
     = [Src.EName "batch_size"]
  /\ keywords_of "TrainingArguments" "per_device_eval_batch_size" Source.program
     = [Src.EName "batch_size"].
Proof.
  split; [repeat constructor|].
  repeat split; vm_compute; reflexivity.
Qed.


